(** * Batch export driver of [examples/batch_convert.py]

    A shallow embedding of [export_documents] and [main] and the
    properties of the driver: outcome counters, files written per
    status, log lines, text encodings, idempotence of the export and
    the frame property on the conversion results. *)

From Stdlib Require Import Ascii.
From stdpp Require Import gmap strings list fin_maps pretty.

Local Open Scope string_scope.
Local Open Scope list_scope.

(** ** [pathlib] paths

    A path is the tuple of its components, as [PurePath.parts] gives it;
    an absolute path keeps its root, ["/"] or ["//"], as its first
    component. *)

Abbreviation Path := (list string).

Module PurePath.

(** [str.rfind('.')]: position of the last dot, [None] for Python's -1. *)
Fixpoint rfind_dot_from (s : string) (i : nat) (acc : option nat) : option nat :=
  match s with
  | EmptyString => acc
  | String c s' =>
      rfind_dot_from s' (S i) (if Ascii.eqb c "."%char then Some i else acc)
  end.

Definition rfind_dot (s : string) : option nat := rfind_dot_from s 0 None.

(** The two roots of a POSIX path: one slash, or exactly two. *)
Definition is_root (s : string) : bool :=
  String.eqb s "/" || String.eqb s "//".

Definition has_root (p : Path) : bool :=
  match p with
  | r :: _ => is_root r
  | [] => false
  end.

(** [PurePath.name]: the final component, empty when the path has no
    component besides its root;
    [if len(parts) == (1 if root else 0): return ''; return parts[-1]]. *)
Definition name (p : Path) : string :=
  if (length p =? (if has_root p then 1 else 0))%nat then EmptyString
  else default EmptyString (last p).

(** [PurePath.stem]: the final component without its last suffix;
    [if 0 < i < len(name) - 1: name[:i] else: name]. *)
Definition stem (p : Path) : string :=
  let n := name p in
  match rfind_dot n with
  | Some i =>
      if ((0 <? i) && (i <? String.length n - 1))%nat
      then String.substring 0 i n else n
  | None => n
  end.

(** [p / segment] for a single relative segment. *)
Definition truediv (p : Path) (segment : string) : Path := p ++ [segment].

Fixpoint join (sep : string) (l : list string) : string :=
  match l with
  | [] => EmptyString
  | [s] => s
  | s :: l' => s +:+ sep +:+ join sep l'
  end.

(** [str(p)]: the root followed by the other components joined by
    slashes, and a dot for the empty path. *)
Definition str (p : Path) : string :=
  match p with
  | [] => "."
  | r :: rest => if is_root r then r +:+ join "/" rest else join "/" p
  end.

(** The path itself preceded by its ancestors: what
    [mkdir(parents=True)] makes sure exists. *)
Fixpoint with_parents (p : Path) : list Path :=
  match p with
  | [] => []
  | s :: p' => [s] :: map (cons s) (with_parents p')
  end.

End PurePath.

Infix "//" := PurePath.truediv (at level 40, left associativity).

(** ** Data model *)

(** Modelled from the spec: the enumeration [ConversionStatus] is declared in
    [docling.datamodel.base_models], which is not part of the sources; the
    specification gives it as the closed set of these three outcomes. *)
Inductive ConversionStatus := SUCCESS | PARTIAL_SUCCESS | FAILURE.

Global Instance ConversionStatus_eq_dec : EqDecision ConversionStatus.
Proof. solve_decision. Defined.

(** An error record of a partially converted document. *)
Record ErrorItem := { error_message : string }.

(** The originating input document. *)
Record InputDocument := { file : Path }.

(** References to objects living on the Python heap. *)
Definition loc := nat.

(** Python exceptions raised by the orchestration routine. *)
Inductive PyExc :=
| NameError (name : string)
| RuntimeError (msg : string).

(** A call [path.open("w", encoding=...)] followed by [fp.write(data)];
    [None] stands for an omitted [encoding] argument. *)
Record WriteCall := {
  w_path : Path;
  w_encoding : option string;
  w_data : string
}.

Global Instance WriteCall_eq_dec : EqDecision WriteCall.
Proof. solve_decision. Defined.

(** A regular file: the text last written and the encoding it was
    written with. *)
Record File := { f_encoding : string; f_text : string }.

Section Driver.

(** The collaborators the driver consumes: the dictionaries the renderers
    return and the two serializers, [json.dumps] and [yaml.safe_dump]. *)
Context {Dict : Type}.
Variable json_dumps : Dict → string.
Variable yaml_safe_dump : Dict → string.

(** The experimental document representation, [conv_res.experimental]. *)
Record DoclingDocument := {
  model_dump : Dict;
  export_to_document_tokens : string;
  export_to_markdown : string
}.

Record ConversionResult := {
  status : ConversionStatus;
  input : InputDocument;
  errors : list ErrorItem;
  render_as_dict : Dict;
  render_as_text : string;
  render_as_markdown : string;
  render_as_doctags : string;
  experimental : DoclingDocument
}.

(** The state the program runs in: the module global [USE_EXPERIMENTAL],
    the platform's default text encoding, the file system (directories and
    regular files), the history of write calls, the lines handed to
    [_log.info], and the heap holding the conversion results. *)
Record World := {
  USE_EXPERIMENTAL : bool;
  locale_encoding : string;
  dirs : gset Path;
  files : gmap Path File;
  opened : list WriteCall;
  log : list string;
  heap : loc → ConversionResult
}.

(** *** The state monad of the driver

    File-system calls are modelled on their success path: the I/O errors
    the driver does not catch are outside the model. *)
Definition M (A : Type) : Type := World → A * World.

#[global] Instance M_ret : MRet M := λ A x w, (x, w).
#[global] Instance M_bind : MBind M :=
  λ A B f m w, let '(a, w') := m w in f a w'.

(** Reading an attribute of the object a reference points to. *)
Definition attr {A} (field : ConversionResult → A) (l : loc) : M A :=
  λ w, (field (heap w l), w).

(** Reading the module global. *)
Definition read_USE_EXPERIMENTAL : M bool :=
  λ w, (USE_EXPERIMENTAL w, w).

(** [p.mkdir(parents=True, exist_ok=True)]. *)
Definition mkdir (p : Path) : M unit :=
  λ w, (tt, {| USE_EXPERIMENTAL := USE_EXPERIMENTAL w;
               locale_encoding := locale_encoding w;
               dirs := list_to_set (PurePath.with_parents p) ∪ dirs w;
               files := files w;
               opened := opened w;
               log := log w;
               heap := heap w |}).

(** The encoding a write call ends up using. *)
Definition effective_encoding (w : World) (c : WriteCall) : string :=
  default (locale_encoding w) (w_encoding c).

(** [with p.open("w", encoding=enc) as fp: fp.write(data)]: the file is
    created or truncated and then holds [data]. *)
Definition write_text (p : Path) (enc : option string) (data : string) : M unit :=
  λ w, let c := {| w_path := p; w_encoding := enc; w_data := data |} in
       (tt, {| USE_EXPERIMENTAL := USE_EXPERIMENTAL w;
               locale_encoding := locale_encoding w;
               dirs := dirs w;
               files := <[p := {| f_encoding := effective_encoding w c;
                                  f_text := data |}]> (files w);
               opened := opened w ++ [c];
               log := log w;
               heap := heap w |}).

(** [_log.info(msg)]. *)
Definition log_info (msg : string) : M unit :=
  λ w, (tt, {| USE_EXPERIMENTAL := USE_EXPERIMENTAL w;
               locale_encoding := locale_encoding w;
               dirs := dirs w;
               files := files w;
               opened := opened w;
               log := log w ++ [msg];
               heap := heap w |}).

(** [for x in xs: s = body(x, s)]. *)
Fixpoint for_each {A S} (xs : list A) (body : A → S → M S) (s : S) : M S :=
  match xs with
  | [] => mret s
  | x :: xs' => s' ← body x s; for_each xs' body s'
  end.

(** [for x in xs: body(x)]. *)
Fixpoint for_each_ {A} (xs : list A) (body : A → M unit) : M unit :=
  match xs with
  | [] => mret tt
  | x :: xs' => body x;; for_each_ xs' body
  end.

(** *** [export_documents] *)

(** The three local counters. *)
Record Counts := {
  success_count : nat;
  failure_count : nat;
  partial_success_count : nat
}.

Definition utf8 : option string := Some "utf-8".

(** The body of the [if USE_EXPERIMENTAL:] block. *)
Definition export_experimental (conv_res : loc) (output_dir : Path)
    (doc_filename : string) : M unit :=
  e ← attr experimental conv_res;
  write_text (output_dir // (doc_filename +:+ ".experimental.json")) None
    (json_dumps (model_dump e));;
  e ← attr experimental conv_res;
  write_text (output_dir // (doc_filename +:+ ".experimental.yaml")) None
    (yaml_safe_dump (model_dump e));;
  e ← attr experimental conv_res;
  write_text (output_dir // (doc_filename +:+ ".experimental.doctags")) None
    (export_to_document_tokens e);;
  e ← attr experimental conv_res;
  write_text (output_dir // (doc_filename +:+ ".experimental.md")) None
    (export_to_markdown e).

(** The branch [conv_res.status == ConversionStatus.SUCCESS]. *)
Definition export_success (conv_res : loc) (output_dir : Path) : M unit :=
  i ← attr input conv_res;
  let doc_filename := PurePath.stem (file i) in
  d ← attr render_as_dict conv_res;
  write_text (output_dir // (doc_filename +:+ ".json")) utf8 (json_dumps d);;
  t ← attr render_as_text conv_res;
  write_text (output_dir // (doc_filename +:+ ".txt")) utf8 t;;
  m ← attr render_as_markdown conv_res;
  write_text (output_dir // (doc_filename +:+ ".md")) utf8 m;;
  g ← attr render_as_doctags conv_res;
  write_text (output_dir // (doc_filename +:+ ".doctags")) utf8 g;;
  flag ← read_USE_EXPERIMENTAL;
  if flag : bool then export_experimental conv_res output_dir doc_filename
  else mret tt.

(** The branch [conv_res.status == ConversionStatus.PARTIAL_SUCCESS],
    without the counter. *)
Definition report_partial (conv_res : loc) : M unit :=
  i ← attr input conv_res;
  log_info ("Document " +:+ PurePath.str (file i)
            +:+ " was partially converted with the following errors:");;
  es ← attr errors conv_res;
  for_each_ es (λ item, log_info (String "009"%char (error_message item))).

(** The [else] branch, without the counter. *)
Definition report_failure (conv_res : loc) : M unit :=
  i ← attr input conv_res;
  log_info ("Document " +:+ PurePath.str (file i) +:+ " failed to convert.").

(** One iteration of [for conv_res in conv_results]. *)
Definition loop_body (output_dir : Path) (conv_res : loc) (c : Counts)
    : M Counts :=
  st ← attr status conv_res;
  if decide (st = SUCCESS) then
    let c := {| success_count := success_count c + 1;
                failure_count := failure_count c;
                partial_success_count := partial_success_count c |} in
    export_success conv_res output_dir;;
    mret c
  else
    st ← attr status conv_res;
    if decide (st = PARTIAL_SUCCESS) then
      report_partial conv_res;;
      mret {| success_count := success_count c;
              failure_count := failure_count c;
              partial_success_count := partial_success_count c + 1 |}
    else
      report_failure conv_res;;
      mret {| success_count := success_count c;
              failure_count := failure_count c + 1;
              partial_success_count := partial_success_count c |}.

Definition summary_line (c : Counts) : string :=
  "Processed "
    +:+ pretty (success_count c + partial_success_count c + failure_count c)
    +:+ " docs, of which " +:+ pretty (failure_count c) +:+ " failed and "
    +:+ pretty (partial_success_count c) +:+ " were partially converted.".

Definition zero_counts : Counts :=
  {| success_count := 0; failure_count := 0; partial_success_count := 0 |}.

Definition export_documents (conv_results : list loc) (output_dir : Path)
    : M (nat * nat * nat) :=
  mkdir output_dir;;
  c ← for_each conv_results (loop_body output_dir) zero_counts;
  log_info (summary_line c);;
  mret (success_count c, partial_success_count c, failure_count c).

End Driver.

(** ** The orchestration routine, [main] *)

(** The names bound in the module namespace when [main] runs: the imports
    of lines 1-10, the module-level assignments and the two functions. *)
Definition module_names : list string :=
  [ "json"; "logging"; "time"; "Path"; "Iterable"; "yaml";
    "ConversionStatus"; "PdfPipelineOptions";
    "ConversionResult"; "DocumentConversionInput";
    "_log"; "USE_EXPERIMENTAL"; "export_documents"; "main" ].

(** The built-in names [main] refers to. *)
Definition builtin_names : list string := [ "len"; "RuntimeError" ].

Definition batch_convert_globals : gset string :=
  list_to_set (module_names ++ builtin_names).

(** Every name [main] looks up, in evaluation order. *)
Definition names_used_by_main : list string :=
  [ "logging"; "Path"; "PdfDocumentConverter"; "PdfPipelineOptions";
    "DocumentConversionInput"; "StandardModelPipeline"; "time";
    "export_documents"; "_log"; "RuntimeError"; "len" ].

Definition input_doc_paths : list Path :=
  [ ["tests"; "data"; "2206.01062.pdf"];
    ["tests"; "data"; "2203.01017v2.pdf"];
    ["tests"; "data"; "2305.03393v1.pdf"];
    ["tests"; "data"; "redp5110.pdf"];
    ["tests"; "data"; "redp5695.pdf"] ].

Section Main.

Context {Dict : Type}.
Variable json_dumps : Dict → string.
Variable yaml_safe_dump : Dict → string.

(** The namespace global names are resolved in. *)
Variable globals : gset string.

(** The external converter: [doc_converter.convert(input)] for the input
    built by [DocumentConversionInput.from_paths], yielding references to
    the results it produced. *)
Variable convert : list Path → M (Dict := Dict) (list loc).

(** The text of [f"{end_time:.2f}"]. *)
Variable elapsed : string.

(** Computations that may raise. *)
Definition X (A : Type) : Type := World (Dict := Dict) → (PyExc + A) * World (Dict := Dict).

#[global] Instance X_ret : MRet X := λ A x w, (inr x, w).
#[global] Instance X_bind : MBind X :=
  λ A B f m w,
    match m w with
    | (inl e, w') => (inl e, w')
    | (inr a, w') => f a w'
    end.

Definition raise {A} (e : PyExc) : X A := λ w, (inl e, w).

Definition lift {A} (m : M A) : X A := λ w, let '(a, w') := m w in (inr a, w').

(** Resolving a global name. *)
Definition load_global (x : string) : X unit :=
  if decide (x ∈ globals) then mret tt else raise (NameError x).

(** The call [PdfDocumentConverter(pipeline_options=PdfPipelineOptions(),
    pdf_backend=DocumentConversionInput.DEFAULT_BACKEND,
    pipeline_cls=StandardModelPipeline)]: the callee first, then the
    arguments from left to right. *)
Definition make_converter : X unit :=
  load_global "PdfDocumentConverter";;
  load_global "PdfPipelineOptions";;
  load_global "DocumentConversionInput";;
  load_global "StandardModelPipeline".

Definition failure_message (failure_count : nat) : string :=
  "The example failed converting " +:+ pretty failure_count
    +:+ " on " +:+ pretty (length input_doc_paths) +:+ ".".

Definition main : X unit :=
  load_global "logging";;
  load_global "Path";;
  make_converter;;
  load_global "DocumentConversionInput";;
  load_global "time";;
  conv_results ← lift (convert input_doc_paths);
  load_global "export_documents";;
  load_global "Path";;
  counts ← lift (export_documents json_dumps yaml_safe_dump conv_results ["scratch"]);
  let '(success_count, partial_success_count, failure_count) := counts in
  load_global "time";;
  load_global "_log";;
  lift (log_info ("All documents were converted in " +:+ elapsed +:+ " seconds."));;
  if decide (0 < failure_count) then
    load_global "RuntimeError";;
    load_global "len";;
    raise (RuntimeError (failure_message failure_count))
  else mret tt.

End Main.

(** ** What one run adds to the world *)

Section Effects.

Context {Dict : Type}.
Variable json_dumps : Dict → string.
Variable yaml_safe_dump : Dict → string.

(** The file a write call leaves behind, given the platform encoding. *)
Definition written_file (platform : string) (c : WriteCall) : File :=
  {| f_encoding := default platform (w_encoding c); f_text := w_data c |}.

(** Replaying write calls, oldest first, on a file table. *)
Definition replay (platform : string) (cs : list WriteCall)
    (m : gmap Path File) : gmap Path File :=
  fold_left (λ m c, <[w_path c := written_file platform c]> m) cs m.

(** The world after the write calls [cs] and the log lines [ls]. *)
Definition extend (w : World (Dict := Dict)) (cs : list WriteCall)
    (ls : list string) : World :=
  {| USE_EXPERIMENTAL := USE_EXPERIMENTAL w;
     locale_encoding := locale_encoding w;
     dirs := dirs w;
     files := replay (locale_encoding w) cs (files w);
     opened := opened w ++ cs;
     log := log w ++ ls;
     heap := heap w |}.

(** The write calls of the four primary formats. *)
Definition primary_writes (output_dir : Path) (r : ConversionResult (Dict := Dict))
    : list WriteCall :=
  let doc_filename := PurePath.stem (file (input r)) in
  [ {| w_path := output_dir // (doc_filename +:+ ".json");
       w_encoding := Some "utf-8";
       w_data := json_dumps (render_as_dict r) |};
    {| w_path := output_dir // (doc_filename +:+ ".txt");
       w_encoding := Some "utf-8";
       w_data := render_as_text r |};
    {| w_path := output_dir // (doc_filename +:+ ".md");
       w_encoding := Some "utf-8";
       w_data := render_as_markdown r |};
    {| w_path := output_dir // (doc_filename +:+ ".doctags");
       w_encoding := Some "utf-8";
       w_data := render_as_doctags r |} ].

(** The write calls of the four experimental formats. *)
Definition experimental_writes (output_dir : Path) (r : ConversionResult (Dict := Dict))
    : list WriteCall :=
  let doc_filename := PurePath.stem (file (input r)) in
  [ {| w_path := output_dir // (doc_filename +:+ ".experimental.json");
       w_encoding := None;
       w_data := json_dumps (model_dump (experimental r)) |};
    {| w_path := output_dir // (doc_filename +:+ ".experimental.yaml");
       w_encoding := None;
       w_data := yaml_safe_dump (model_dump (experimental r)) |};
    {| w_path := output_dir // (doc_filename +:+ ".experimental.doctags");
       w_encoding := None;
       w_data := export_to_document_tokens (experimental r) |};
    {| w_path := output_dir // (doc_filename +:+ ".experimental.md");
       w_encoding := None;
       w_data := export_to_markdown (experimental r) |} ].

(** All write calls one result gives rise to. *)
Definition result_writes (flag : bool) (output_dir : Path)
    (r : ConversionResult (Dict := Dict)) : list WriteCall :=
  match status r with
  | SUCCESS =>
      primary_writes output_dir r
        ++ (if flag then experimental_writes output_dir r else [])
  | _ => []
  end.

Definition partial_header (r : ConversionResult (Dict := Dict)) : string :=
  "Document " +:+ PurePath.str (file (input r))
    +:+ " was partially converted with the following errors:".

Definition failure_line (r : ConversionResult (Dict := Dict)) : string :=
  "Document " +:+ PurePath.str (file (input r)) +:+ " failed to convert.".

Definition error_line (item : ErrorItem) : string :=
  String "009"%char (error_message item).

(** All log lines one result gives rise to. *)
Definition result_lines (r : ConversionResult (Dict := Dict)) : list string :=
  match status r with
  | SUCCESS => []
  | PARTIAL_SUCCESS => partial_header r :: map error_line (errors r)
  | FAILURE => [failure_line r]
  end.

(** The counters after a result of status [st]. *)
Definition bump (st : ConversionStatus) (c : Counts) : Counts :=
  match st with
  | SUCCESS =>
      {| success_count := success_count c + 1;
         failure_count := failure_count c;
         partial_success_count := partial_success_count c |}
  | PARTIAL_SUCCESS =>
      {| success_count := success_count c;
         failure_count := failure_count c;
         partial_success_count := partial_success_count c + 1 |}
  | FAILURE =>
      {| success_count := success_count c;
         failure_count := failure_count c + 1;
         partial_success_count := partial_success_count c |}
  end.

(** How many results of a sequence satisfy a test on the status. *)
Definition count_status (P : ConversionStatus → bool)
    (rs : list (ConversionResult (Dict := Dict))) : nat :=
  length (List.filter (λ r, P (status r)) rs).

Definition is_success (st : ConversionStatus) : bool :=
  match st with SUCCESS => true | _ => false end.
Definition is_partial (st : ConversionStatus) : bool :=
  match st with PARTIAL_SUCCESS => true | _ => false end.
Definition is_other (st : ConversionStatus) : bool :=
  negb (is_success st) && negb (is_partial st).

(** The write calls a run over [conv_results] adds to the history. *)
Definition calls_added (conv_results : list loc) (output_dir : Path)
    (w : World (Dict := Dict)) : list WriteCall :=
  drop (length (opened w))
    (opened (snd (export_documents json_dumps yaml_safe_dump conv_results
                    output_dir w))).

(** The lines a run over [conv_results] adds to the log, the summary line
    included. *)
Definition lines_logged (conv_results : list loc) (output_dir : Path)
    (w : World (Dict := Dict)) : list string :=
  drop (length (log w))
    (log (snd (export_documents json_dumps yaml_safe_dump conv_results
                 output_dir w))).

(** The same lines without the last one: what the loop logged about the
    documents. *)
Definition document_lines (conv_results : list loc) (output_dir : Path)
    (w : World (Dict := Dict)) : list string :=
  removelast (lines_logged conv_results output_dir w).

End Effects.

(** The last character of a file name. *)
Fixpoint last_char (s : string) : option ascii :=
  match s with
  | EmptyString => None
  | String a EmptyString => Some a
  | String _ s' => last_char s'
  end.

(** The file-name suffixes of the four primary and of the four
    experimental formats, in the order the driver writes them. *)
Definition primary_suffixes : list string :=
  [ ".json"; ".txt"; ".md"; ".doctags" ].

Definition experimental_suffixes : list string :=
  [ ".experimental.json"; ".experimental.yaml";
    ".experimental.doctags"; ".experimental.md" ].

(** The world right after [output_dir.mkdir(parents=True, exist_ok=True)]. *)
Definition after_mkdir {Dict : Type} (output_dir : Path)
    (w : World (Dict := Dict)) : World :=
  snd (mkdir output_dir w).

(** ** A concrete batch: one document of each outcome *)

Definition sample_result (st : ConversionStatus) (pdf : string)
    (errs : list ErrorItem) : ConversionResult (Dict := string) :=
  {| status := st;
     input := {| file := ["docs"; pdf] |};
     errors := errs;
     render_as_dict := "{}";
     render_as_text := "text";
     render_as_markdown := "# md";
     render_as_doctags := "<doctag>";
     experimental :=
       {| model_dump := "{}";
          export_to_document_tokens := "<document>";
          export_to_markdown := "# md" |} |}.

Definition sample_heap (l : loc) : ConversionResult (Dict := string) :=
  match l with
  | 0 => sample_result SUCCESS "a.pdf" []
  | 1 => sample_result PARTIAL_SUCCESS "b.pdf" [{| error_message := "bad page" |}]
  | _ => sample_result FAILURE "c.pdf" []
  end.

(** An empty file system on a platform whose default encoding is cp1252. *)
Definition sample_world (flag : bool) : World (Dict := string) :=
  {| USE_EXPERIMENTAL := flag;
     locale_encoding := "cp1252";
     dirs := ∅;
     files := ∅;
     opened := [];
     log := [];
     heap := sample_heap |}.

(** A converter that yields the successfully converted document for each
    of the five inputs. *)
Definition sample_convert (paths : list Path)
    : M (Dict := string) (list loc) :=
  mret (map (λ _, 0) paths).

(** Two successfully converted documents that share the stem [a]. *)
Definition clash_heap (l : loc) : ConversionResult (Dict := string) :=
  match l with
  | 0 => sample_result SUCCESS "a.pdf" []
  | _ =>
      {| status := SUCCESS;
         input := {| file := ["scans"; "a.tiff"] |};
         errors := [];
         render_as_dict := "{scan}";
         render_as_text := "scanned text";
         render_as_markdown := "# scan";
         render_as_doctags := "<scan>";
         experimental :=
           {| model_dump := "{scan}";
              export_to_document_tokens := "<scan>";
              export_to_markdown := "# scan" |} |}
  end.

Definition clash_world : World (Dict := string) :=
  {| USE_EXPERIMENTAL := false;
     locale_encoding := "cp1252";
     dirs := ∅;
     files := ∅;
     opened := [];
     log := [];
     heap := clash_heap |}.

(** The sample world with a file already present in the output directory. *)
Definition stocked_world : World (Dict := string) :=
  {| USE_EXPERIMENTAL := false;
     locale_encoding := "cp1252";
     dirs := {[ ["scratch"] ]};
     files := {[ ["scratch"; "notes.txt"]
                 := {| f_encoding := "utf-8"; f_text := "keep me" |} ]};
     opened := [];
     log := [];
     heap := sample_heap |}.

(** The module namespace with the two missing classes bound as well. *)
Definition patched_globals : gset string :=
  {["PdfDocumentConverter"]} ∪ {["StandardModelPipeline"]}
    ∪ batch_convert_globals.

(** The module namespace with only the converter class bound in addition. *)
Definition half_patched_globals : gset string :=
  {["PdfDocumentConverter"]} ∪ batch_convert_globals.

(** A converter that yields one document of each outcome. *)
Definition mixed_convert (paths : list Path)
    : M (Dict := string) (list loc) :=
  mret [0; 1; 2].

(** ** Running the driver *)

Section Runs.

Context {Dict : Type}.
Variable json_dumps : Dict → string.
Variable yaml_safe_dump : Dict → string.

Local Abbreviation World := (World (Dict := Dict)).
Local Abbreviation export_documents := (export_documents json_dumps yaml_safe_dump).
Local Abbreviation loop_body := (loop_body json_dumps yaml_safe_dump).
Local Abbreviation result_writes := (result_writes json_dumps yaml_safe_dump).
Local Abbreviation primary_writes := (primary_writes json_dumps).
Local Abbreviation experimental_writes :=
  (experimental_writes json_dumps yaml_safe_dump).

Lemma replay_app (platform : string) (cs1 cs2 : list WriteCall) (m : gmap Path File) :
  replay platform (cs1 ++ cs2) m = replay platform cs2 (replay platform cs1 m).
Proof. unfold replay. apply fold_left_app. Qed.

Lemma extend_nil (w : World) : extend w [] [] = w.
Proof. destruct w. unfold extend. cbn. by rewrite !app_nil_r. Qed.

Lemma extend_extend (w : World) (cs1 : list WriteCall) (ls1 : list string)
    (cs2 : list WriteCall) (ls2 : list string) :
  extend (extend w cs1 ls1) cs2 ls2 = extend w (cs1 ++ cs2) (ls1 ++ ls2).
Proof.
  unfold extend. cbn. by rewrite replay_app, !app_assoc.
Qed.

Lemma log_info_run (msg : string) (w : World) :
  log_info msg w = (tt, extend w [] [msg]).
Proof. unfold log_info, extend. cbn. by rewrite app_nil_r. Qed.

Lemma write_text_run (p : Path) (enc : option string) (data : string)
    (w : World) :
  write_text p enc data w
  = (tt, extend w [{| w_path := p; w_encoding := enc; w_data := data |}] []).
Proof. unfold write_text, extend. cbn. by rewrite app_nil_r. Qed.

(** The inner loop over the error records logs one line per record. *)
Lemma for_each_log_run (f : ErrorItem → string) (es : list ErrorItem)
    (w : World) :
  for_each_ es (λ item, log_info (f item)) w = (tt, extend w [] (map f es)).
Proof.
  revert w. induction es as [|e es IH]; intros w; cbn.
  - by rewrite extend_nil.
  - unfold mbind, M_bind. rewrite log_info_run, IH, extend_extend. done.
Qed.

(** One iteration, in closed form. *)
Lemma loop_body_run (output_dir : Path) (l : loc) (c : Counts) (w : World) :
  loop_body output_dir l c w
  = (bump (status (heap w l)) c,
     extend w (result_writes (USE_EXPERIMENTAL w) output_dir (heap w l))
              (result_lines (heap w l))).
Proof.
  unfold loop_body, result_writes, result_lines, attr, mbind, M_bind,
    mret, M_ret.
  cbn beta. destruct (status (heap w l)) eqn:Hst;
    repeat (case_decide; try congruence); cbn.
  - unfold export_success, export_experimental, attr, read_USE_EXPERIMENTAL,
      write_text, mbind, M_bind, mret, M_ret, extend.
    cbn. destruct (USE_EXPERIMENTAL w) eqn:Hflag; cbn;
      rewrite ?Hflag, app_nil_r, <- ?app_assoc; reflexivity.
  - unfold report_partial, attr, mbind, M_bind, mret, M_ret.
    rewrite log_info_run, for_each_log_run, extend_extend. reflexivity.
  - unfold report_failure, attr, mbind, M_bind, mret, M_ret.
    rewrite log_info_run. reflexivity.
Qed.

(** The whole loop, in closed form. *)
Lemma for_each_run (output_dir : Path) (ls : list loc) (c : Counts)
    (w : World) :
  for_each ls (loop_body output_dir) c w
  = (fold_left (λ c l, bump (status (heap w l)) c) ls c,
     extend w
       (flat_map (λ l, result_writes (USE_EXPERIMENTAL w) output_dir (heap w l)) ls)
       (flat_map (λ l, result_lines (heap w l)) ls)).
Proof.
  revert c w. induction ls as [|l ls IH]; intros c w; cbn.
  - by rewrite extend_nil.
  - unfold mbind, M_bind. rewrite loop_body_run, IH, extend_extend. done.
Qed.

(** The three counters after the loop count the statuses met. *)
Lemma fold_bump_counts (h : loc → ConversionResult (Dict := Dict))
    (ls : list loc) (c : Counts) :
  let c' := fold_left (λ c l, bump (status (h l)) c) ls c in
  success_count c' = success_count c + count_status is_success (map h ls)
  ∧ partial_success_count c'
    = partial_success_count c + count_status is_partial (map h ls)
  ∧ failure_count c' = failure_count c + count_status is_other (map h ls).
Proof.
  revert c. induction ls as [|l ls IH]; intros c.
  - cbn. unfold count_status. cbn. lia.
  - cbn [fold_left map]. specialize (IH (bump (status (h l)) c)).
    cbn zeta in IH. destruct IH as (Hs & Hp & Hf).
    cbn zeta. rewrite Hs, Hp, Hf. unfold count_status.
    cbn [List.filter]. unfold is_other, is_success, is_partial.
    destruct (status (h l)); cbn; repeat split; lia.
Qed.

(** Each result adds one to the sum of the three counters. *)
Lemma fold_bump_sum (h : loc → ConversionResult (Dict := Dict))
    (ls : list loc) (c : Counts) :
  let c' := fold_left (λ c l, bump (status (h l)) c) ls c in
  success_count c' + partial_success_count c' + failure_count c'
  = success_count c + partial_success_count c + failure_count c + length ls.
Proof.
  revert c. induction ls as [|l ls IH]; intros c; cbn; [lia|].
  rewrite IH. destruct (status (h l)); cbn; lia.
Qed.

(** The whole driver, in closed form. *)
Lemma export_documents_run (ls : list loc) (output_dir : Path) (w : World) :
  let c := fold_left (λ c l, bump (status (heap w l)) c) ls zero_counts in
  export_documents ls output_dir w
  = ((success_count c, partial_success_count c, failure_count c),
     extend (after_mkdir output_dir w)
       (flat_map (λ l, result_writes (USE_EXPERIMENTAL w) output_dir (heap w l)) ls)
       (flat_map (λ l, result_lines (heap w l)) ls ++ [summary_line c])).
Proof.
  cbn zeta. unfold export_documents, mbind, M_bind, mret, M_ret.
  unfold after_mkdir. destruct (mkdir output_dir w) as [[] w1] eqn:Hmk.
  assert (Hheap : heap w1 = heap w) by (unfold mkdir in Hmk; by simplify_eq).
  assert (Hflag : USE_EXPERIMENTAL w1 = USE_EXPERIMENTAL w)
    by (unfold mkdir in Hmk; by simplify_eq).
  rewrite for_each_run, log_info_run, extend_extend, Hheap, Hflag.
  cbn [snd]. by rewrite app_nil_r.
Qed.

(** *** Replaying write calls *)

Lemma replay_snoc (platform : string) (cs : list WriteCall) (c : WriteCall)
    (m : gmap Path File) :
  replay platform (cs ++ [c]) m
  = <[w_path c := written_file platform c]> (replay platform cs m).
Proof. by rewrite replay_app. Qed.

(** A path no call names keeps its file. *)
Lemma replay_lookup_other (platform : string) (cs : list WriteCall)
    (m : gmap Path File) (p : Path) :
  p ∉ map w_path cs → replay platform cs m !! p = m !! p.
Proof.
  induction cs as [|c cs IH] using rev_ind; intros Hp; [done|].
  rewrite map_app in Hp. cbn in Hp.
  rewrite replay_snoc, lookup_insert_ne.
  - apply IH. set_solver.
  - set_solver.
Qed.

(** A path some call names holds what the calls wrote, whatever was there. *)
Lemma replay_lookup_named (platform : string) (cs : list WriteCall)
    (m1 m2 : gmap Path File) (p : Path) :
  p ∈ map w_path cs → replay platform cs m1 !! p = replay platform cs m2 !! p.
Proof.
  induction cs as [|c cs IH] using rev_ind; intros Hp.
  - by apply elem_of_nil in Hp.
  - rewrite !replay_snoc. destruct (decide (w_path c = p)) as [->|Hne].
    + by rewrite !lookup_insert_eq.
    + rewrite !lookup_insert_ne by done. apply IH.
      rewrite map_app in Hp. set_solver.
Qed.

(** When the calls name pairwise different paths, each file holds what
    its call wrote. *)
Lemma replay_lookup_call (platform : string) (cs : list WriteCall)
    (m : gmap Path File) (c : WriteCall) :
  NoDup (map w_path cs) → c ∈ cs →
  replay platform cs m !! w_path c = Some (written_file platform c).
Proof.
  induction cs as [|c' cs IH] using rev_ind; intros Hnd Hc.
  - by apply elem_of_nil in Hc.
  - rewrite map_app in Hnd. cbn in Hnd.
    apply NoDup_app in Hnd as (Hnd & Hdisj & _).
    rewrite replay_snoc. apply elem_of_app in Hc as [Hc|Hc].
    + rewrite lookup_insert_ne; [by apply IH|].
      intros Heq. apply (Hdisj (w_path c)).
      * apply list_elem_of_fmap. by exists c.
      * rewrite <- Heq. set_solver.
    + apply list_elem_of_singleton in Hc as ->. by rewrite lookup_insert_eq.
Qed.

(** Replaying the same calls a second time changes nothing. *)
Lemma replay_idem (platform : string) (cs : list WriteCall)
    (m : gmap Path File) :
  replay platform cs (replay platform cs m) = replay platform cs m.
Proof.
  apply map_eq. intros p.
  destruct (decide (p ∈ map w_path cs)) as [Hin|Hout].
  - by apply replay_lookup_named.
  - by apply replay_lookup_other.
Qed.

(** *** File names *)

Lemma string_app_inv_head (s x y : string) : s +:+ x = s +:+ y → x = y.
Proof.
  induction s as [|a s IH]; cbn; intros H; [done|].
  apply IH. by injection H.
Qed.

Lemma export_path_inj (output_dir : Path) (doc_filename : string) :
  Inj (=) (=) (λ sfx, output_dir // (doc_filename +:+ sfx)).
Proof.
  intros x y H. unfold PurePath.truediv in H.
  apply app_inv_head in H. injection H as H.
  by apply string_app_inv_head in H.
Qed.

Lemma suffixes_NoDup : NoDup (primary_suffixes ++ experimental_suffixes).
Proof. apply (bool_decide_unpack _). vm_compute. reflexivity. Qed.

Lemma export_paths_NoDup (output_dir : Path) (doc_filename : string)
    (flag : bool) :
  NoDup (map (λ sfx, output_dir // (doc_filename +:+ sfx))
           (primary_suffixes ++ (if flag then experimental_suffixes else []))).
Proof.
  apply (NoDup_fmap_2 _ (Inj0 := export_path_inj output_dir doc_filename)).
  destruct flag; [apply suffixes_NoDup|].
  rewrite app_nil_r. pose proof suffixes_NoDup as Hnd.
  by apply NoDup_app in Hnd as (Hnd & _ & _).
Qed.

(** ** Properties of [export_documents] *)

(** C1. For every finite sequence of conversion results, [export_documents]
    returns the triple (success_count, partial_success_count,
    failure_count): the number of results whose status is SUCCESS, the
    number whose status is PARTIAL_SUCCESS, and the number of all the
    remaining results. *)
Theorem export_documents_returns_counts (conv_results : list loc)
    (output_dir : Path) (w : World) :
  fst (export_documents conv_results output_dir w)
  = (count_status is_success (map (heap w) conv_results),
     count_status is_partial (map (heap w) conv_results),
     count_status is_other (map (heap w) conv_results)).
Proof.
  pose proof (export_documents_run conv_results output_dir w) as Hrun.
  cbn zeta in Hrun. rewrite Hrun. cbn [fst].
  pose proof (fold_bump_counts (heap w) conv_results zero_counts) as Hc.
  cbn zeta in Hc. destruct Hc as (-> & -> & ->). reflexivity.
Qed.

(** C2. After the full sequence is processed the three counters sum to its
    length, and every iteration of the loop increments exactly one of the
    three counters by exactly one, leaving the two others as they were. *)
Theorem counters_sum_to_length (conv_results : list loc) (output_dir : Path)
    (w : World) :
  (let '(success_count, partial_success_count, failure_count) :=
     fst (export_documents conv_results output_dir w) in
   success_count + partial_success_count + failure_count
   = length conv_results)
  ∧ ∀ (l : loc) (c : Counts) (w0 : World),
      let c' := fst (loop_body output_dir l c w0) in
      (success_count c' = success_count c + 1
       ∧ partial_success_count c' = partial_success_count c
       ∧ failure_count c' = failure_count c)
      ∨ (success_count c' = success_count c
         ∧ partial_success_count c' = partial_success_count c + 1
         ∧ failure_count c' = failure_count c)
      ∨ (success_count c' = success_count c
         ∧ partial_success_count c' = partial_success_count c
         ∧ failure_count c' = failure_count c + 1).
Proof.
  split.
  - pose proof (export_documents_run conv_results output_dir w) as Hrun.
    cbn zeta in Hrun. rewrite Hrun. cbn [fst].
    pose proof (fold_bump_sum (heap w) conv_results zero_counts) as Hsum.
    cbn zeta in Hsum. rewrite Hsum. cbn. lia.
  - intros l c w0. rewrite loop_body_run. cbn.
    destruct (status (heap w0 l)); cbn; auto.
Qed.

(** C8. Running the driver a second time with the same results on the same
    output directory leaves the file system as the first run left it: the
    same regular files with the same content and the same directories;
    the second run returns the same counts. *)
Theorem export_documents_idempotent (conv_results : list loc)
    (output_dir : Path) (w : World) :
  let w1 := snd (export_documents conv_results output_dir w) in
  let w2 := snd (export_documents conv_results output_dir w1) in
  files w2 = files w1
  ∧ dirs w2 = dirs w1
  ∧ fst (export_documents conv_results output_dir w1)
    = fst (export_documents conv_results output_dir w).
Proof.
  pose proof (export_documents_run conv_results output_dir w) as Hrun.
  cbn zeta in Hrun. cbn zeta. rewrite Hrun. cbn [snd fst].
  match goal with |- context [extend ?a ?b ?c] => set (w1 := extend a b c) end.
  pose proof (export_documents_run conv_results output_dir w1) as Hrun1.
  cbn zeta in Hrun1. rewrite Hrun1. cbn [snd fst].
  subst w1. unfold after_mkdir, mkdir. cbn.
  repeat split.
  - apply replay_idem.
  - set_solver.
Qed.

(** C9. The driver never changes a conversion result: after every iteration
    of the loop, and after the driver returns, each reference denotes the
    very object it denoted before. *)
Theorem export_documents_reads_only (conv_results : list loc)
    (output_dir : Path) (w : World) :
  heap (snd (export_documents conv_results output_dir w)) = heap w
  ∧ ∀ (l : loc) (c : Counts) (w0 : World),
      heap (snd (loop_body output_dir l c w0)) = heap w0.
Proof.
  split.
  - pose proof (export_documents_run conv_results output_dir w) as Hrun.
    cbn zeta in Hrun. by rewrite Hrun.
  - intros l c w0. by rewrite loop_body_run.
Qed.

(** *** Text encodings *)

(** The four primary formats are written as UTF-8. *)
Lemma primary_writes_utf8 (output_dir : Path)
    (r : ConversionResult (Dict := Dict)) (platform : string) :
  Forall (λ call, default platform (w_encoding call) = "utf-8")
    (primary_writes output_dir r).
Proof. unfold primary_writes. repeat constructor. Qed.

(** X13. While [USE_EXPERIMENTAL] is off, every write call of a run is
    UTF-8. *)
Lemma writes_utf8_without_experimental (conv_results : list loc)
    (output_dir : Path) (w : World) :
  USE_EXPERIMENTAL w = false →
  let w' := snd (export_documents conv_results output_dir w) in
  ∃ calls, opened w' = opened w ++ calls
    ∧ Forall (λ call, effective_encoding w' call = "utf-8") calls.
Proof.
  intros Hflag. pose proof (export_documents_run conv_results output_dir w) as Hrun.
  cbn zeta in Hrun. cbn zeta. rewrite Hrun, Hflag. cbn [snd].
  eexists. split; [reflexivity|].
  unfold effective_encoding. cbn [locale_encoding extend after_mkdir mkdir snd].
  apply Forall_flat_map, Forall_forall. intros l _.
  unfold result_writes. destruct (status (heap w l)); [|by constructor..].
  rewrite app_nil_r. apply primary_writes_utf8.
Qed.

End Runs.

(** ** Properties of [main] *)

Section MainRuns.

Context {Dict : Type}.
Variable json_dumps : Dict → string.
Variable yaml_safe_dump : Dict → string.
Variable convert : list Path → M (Dict := Dict) (list loc).
Variable elapsed : string.

Local Abbreviation World := (World (Dict := Dict)).

Lemma load_global_bound (globals : gset string) (x : string) (w : World) :
  x ∈ globals → load_global globals x w = (inr tt, w).
Proof. intros Hx. unfold load_global. by rewrite decide_True. Qed.

Lemma load_global_unbound (globals : gset string) (x : string) (w : World) :
  x ∉ globals → load_global globals x w = (inl (NameError x), w).
Proof. intros Hx. unfold load_global. by rewrite decide_False. Qed.

(** With [PdfDocumentConverter] unbound, [main] stops at line 113. *)
Lemma main_stops_at_unbound_converter (globals : gset string) (w : World) :
  "logging" ∈ globals → "Path" ∈ globals →
  "PdfDocumentConverter" ∉ globals →
  main json_dumps yaml_safe_dump globals convert elapsed w = (inl (NameError "PdfDocumentConverter"), w).
Proof.
  intros Hlog Hpath Hconv.
  unfold main, make_converter, mbind, X_bind.
  rewrite (load_global_bound _ _ _ Hlog), (load_global_bound _ _ _ Hpath).
  by rewrite (load_global_unbound _ _ _ Hconv).
Qed.

(** X11. With every name bound, [main] converts, exports, logs the elapsed
    time and only then raises [RuntimeError], exactly when the failure count
    is positive, with a message giving that count and the number of inputs;
    otherwise it returns normally. *)
Lemma main_with_names_bound (globals : gset string) (w : World) :
  (∀ x, x ∈ names_used_by_main → x ∈ globals) →
  let rs := fst (convert input_doc_paths w) in
  let w1 := snd (convert input_doc_paths w) in
  let run := export_documents json_dumps yaml_safe_dump rs ["scratch"] w1 in
  let failure_count := snd (fst run) in
  let w3 :=
    snd (log_info ("All documents were converted in " +:+ elapsed
                   +:+ " seconds.") (snd run)) in
  main json_dumps yaml_safe_dump globals convert elapsed w
  = (if decide (0 < failure_count)
     then inl (RuntimeError (failure_message failure_count))
     else inr tt, w3).
Proof.
  intros Hbound. cbn zeta.
  assert (Hload : ∀ x (w0 : World), x ∈ names_used_by_main →
            load_global globals x w0 = (inr tt, w0)).
  { intros x w0 Hx. apply load_global_bound. by apply Hbound. }
  unfold main, make_converter, mbind, X_bind, lift.
  repeat (rewrite Hload by (unfold names_used_by_main; set_solver)).
  destruct (convert input_doc_paths w) as [rs w1]. cbn [fst snd].
  repeat (rewrite Hload by (unfold names_used_by_main; set_solver)).
  destruct (export_documents json_dumps yaml_safe_dump rs ["scratch"] w1)
    as [[[s p] f] w2]. cbn [fst snd].
  repeat (rewrite Hload by (unfold names_used_by_main; set_solver)).
  unfold log_info. cbn [snd].
  destruct (decide (0 < f)); [|reflexivity].
  repeat (rewrite Hload by (unfold names_used_by_main; set_solver)).
  reflexivity.
Qed.

(** C10. The names [PdfDocumentConverter] and [StandardModelPipeline] are
    bound nowhere in the module, so every call of [main] raises [NameError]
    at the construction of the converter: whatever the converter and the
    state of the world, nothing is converted, exported or logged, and the
    failure check at the end of [main] is never reached. *)
Theorem main_always_raises_NameError (w : World) :
  ("PdfDocumentConverter" ∉ batch_convert_globals)
  ∧ ("StandardModelPipeline" ∉ batch_convert_globals)
  ∧ main json_dumps yaml_safe_dump batch_convert_globals convert elapsed w
    = (inl (NameError "PdfDocumentConverter"), w).
Proof.
  assert (Hconv : "PdfDocumentConverter" ∉ batch_convert_globals).
  { apply (bool_decide_unpack _). vm_compute. reflexivity. }
  split; [done|split].
  - apply (bool_decide_unpack _). vm_compute. reflexivity.
  - apply main_stops_at_unbound_converter; [| |done];
      apply (bool_decide_unpack _); vm_compute; reflexivity.
Qed.

End MainRuns.

(** ** The driver on the concrete batch *)

(** C6, on the sample batch with [USE_EXPERIMENTAL] set, on a platform whose
    default encoding is cp1252: the primary formats are written as UTF-8,
    but the write of [a.experimental.json] passes no encoding and the file
    is written in the platform's encoding, not in UTF-8. *)
Theorem experimental_write_not_utf8 :
  let w' := snd (export_documents id id [0] ["scratch"] (sample_world true)) in
  let call := {| w_path := ["scratch"; "a.experimental.json"];
                 w_encoding := None;
                 w_data := "{}" |} in
  call ∈ opened w'
  ∧ effective_encoding w' call = "cp1252"
  ∧ effective_encoding w' call ≠ "utf-8"
  ∧ files w' !! ["scratch"; "a.experimental.json"]
    = Some {| f_encoding := "cp1252"; f_text := "{}" |}
  ∧ files w' !! ["scratch"; "a.json"]
    = Some {| f_encoding := "utf-8"; f_text := "{}" |}.
Proof.
  cbn zeta. split; [|split; [|split; [|split]]].
  - apply (bool_decide_unpack _). vm_compute. reflexivity.
  - vm_compute. reflexivity.
  - vm_compute. discriminate.
  - vm_compute. reflexivity.
  - vm_compute. reflexivity.
Qed.

(** C7, on the module as it is written: with a converter whose five results
    are all successes the failure count is zero, and [main] still ends in
    an exception, the [NameError] of the unbound converter class, instead
    of returning normally. *)
Theorem main_raises_without_failures :
  snd (fst (export_documents id id (map (λ _, 0) input_doc_paths) ["scratch"]
              (sample_world false))) = 0
  ∧ fst (main id id batch_convert_globals sample_convert "0.00"
           (sample_world false))
    = inl (NameError "PdfDocumentConverter").
Proof. split; vm_compute; reflexivity. Qed.

(** ** Whole runs of the driver *)

Section Batches.

Context {Dict : Type}.
Variable json_dumps : Dict → string.
Variable yaml_safe_dump : Dict → string.

Local Abbreviation World := (World (Dict := Dict)).
Local Abbreviation export_documents := (export_documents json_dumps yaml_safe_dump).
Local Abbreviation result_writes := (result_writes json_dumps yaml_safe_dump).

(** The write calls and the log lines of a whole sequence. *)
Lemma run_calls_app (flag : bool) (output_dir : Path)
    (h : loc → ConversionResult (Dict := Dict)) (ls1 ls2 : list loc) :
  flat_map (λ l, result_writes flag output_dir (h l)) (ls1 ++ ls2)
  = flat_map (λ l, result_writes flag output_dir (h l)) ls1
    ++ flat_map (λ l, result_writes flag output_dir (h l)) ls2.
Proof. apply flat_map_app. Qed.

(** The members of [with_parents p] are the non-empty prefixes of [p]. *)
Lemma elem_of_with_parents (p q : Path) :
  q ∈ PurePath.with_parents p ↔ q ≠ [] ∧ q `prefix_of` p.
Proof.
  revert q. induction p as [|s p IH]; intros q; cbn.
  - split.
    + intros H. by apply elem_of_nil in H.
    + intros [Hne Hpre]. apply prefix_nil_inv in Hpre. done.
  - rewrite elem_of_cons, list_elem_of_fmap. split.
    + intros [->|(q' & -> & Hq')].
      * split; [done|]. by exists p.
      * apply IH in Hq' as [_ Hpre]. split; [done|]. by apply prefix_cons.
    + intros [Hne Hpre]. destruct q as [|s' q]; [done|].
      pose proof (prefix_cons_inv_1 _ _ _ _ Hpre) as ->.
      apply prefix_cons_inv_2 in Hpre.
      destruct q as [|s'' q]; [by left|]. right.
      exists (s'' :: q). split; [done|]. apply IH. done.
Qed.

(** X1. The last line a run logs is the summary: it reports the length of
    the sequence as the number of processed documents, then the returned
    failure count and the returned partial-success count. *)
Theorem summary_line_is_logged_last (conv_results : list loc)
    (output_dir : Path) (w : World) :
  let run := export_documents conv_results output_dir w in
  last (log (snd run))
  = Some ("Processed " +:+ pretty (length conv_results)
          +:+ " docs, of which " +:+ pretty (snd (fst run)) +:+ " failed and "
          +:+ pretty (snd (fst (fst run)))
          +:+ " were partially converted.").
Proof.
  pose proof (export_documents_run json_dumps yaml_safe_dump conv_results
                output_dir w) as Hrun.
  cbn zeta in Hrun. cbn zeta. rewrite Hrun. cbn [fst snd extend log].
  rewrite !app_assoc, last_snoc. unfold summary_line.
  pose proof (fold_bump_sum (heap w) conv_results zero_counts) as Hsum.
  cbn zeta in Hsum. rewrite Hsum. reflexivity.
Qed.

(** X2. On an empty sequence the driver returns (0, 0, 0), writes no file,
    makes sure the output directory exists and logs the summary line
    only. *)
Theorem export_documents_empty (output_dir : Path) (w : World) :
  let run := export_documents [] output_dir w in
  fst run = (0, 0, 0)
  ∧ files (snd run) = files w
  ∧ opened (snd run) = opened w
  ∧ dirs (snd run) = list_to_set (PurePath.with_parents output_dir) ∪ dirs w
  ∧ log (snd run)
    = log w ++ ["Processed 0 docs, of which 0 failed and 0 were partially converted."].
Proof.
  pose proof (export_documents_run json_dumps yaml_safe_dump [] output_dir w)
    as Hrun.
  cbn zeta in Hrun. cbn zeta. rewrite Hrun.
  cbn [fst snd extend files opened dirs log flat_map fold_left replay
       after_mkdir mkdir app].
  by rewrite app_nil_r.
Qed.

(** X3. After a run the directories are those that existed before together
    with the output directory and each of its ancestors. *)
Theorem output_directory_exists (conv_results : list loc) (output_dir : Path)
    (w : World) (p : Path) :
  p ∈ dirs (snd (export_documents conv_results output_dir w))
  ↔ p ∈ dirs w ∨ (p ≠ [] ∧ p `prefix_of` output_dir).
Proof.
  pose proof (export_documents_run json_dumps yaml_safe_dump conv_results
                output_dir w) as Hrun.
  cbn zeta in Hrun. rewrite Hrun. cbn [snd extend dirs after_mkdir mkdir].
  rewrite elem_of_union, elem_of_list_to_set, elem_of_with_parents. tauto.
Qed.

(** Replaying write calls never removes a file. *)
Lemma replay_keeps_files (platform : string) (cs : list WriteCall)
    (m : gmap Path File) (p : Path) :
  is_Some (m !! p) → is_Some (replay platform cs m !! p).
Proof.
  induction cs as [|c cs IH] using rev_ind; intros Hp; [done|].
  rewrite replay_snoc. destruct (decide (w_path c = p)) as [->|Hne].
  - rewrite lookup_insert_eq. by eexists.
  - rewrite lookup_insert_ne by done. by apply IH.
Qed.

(** Where the write calls of one result go. *)
Lemma result_writes_paths (flag : bool) (output_dir : Path)
    (r : ConversionResult (Dict := Dict)) :
  Forall (λ call, status r = SUCCESS
                  ∧ ∃ sfx, sfx ∈ primary_suffixes ++ experimental_suffixes
                           ∧ w_path call
                             = output_dir // (PurePath.stem (file (input r)) +:+ sfx))
    (result_writes flag output_dir r).
Proof.
  unfold result_writes. destruct (status r) eqn:Hst; [|by constructor..].
  apply Forall_app. split.
  - unfold primary_writes, primary_suffixes, experimental_suffixes.
    repeat (constructor; [split; [done|]; eexists; split; [|reflexivity];
                          set_solver|]).
    constructor.
  - destruct flag; [|by constructor].
    unfold experimental_writes, primary_suffixes, experimental_suffixes.
    repeat (constructor; [split; [done|]; eexists; split; [|reflexivity];
                          set_solver|]).
    constructor.
Qed.

(** How many write calls one result gives rise to. *)
Lemma result_writes_length (flag : bool) (output_dir : Path)
    (r : ConversionResult (Dict := Dict)) :
  length (result_writes flag output_dir r)
  = if is_success (status r) then (if flag then 8 else 4) else 0.
Proof. unfold result_writes. by destruct (status r), flag. Qed.

(** How many write calls a whole sequence gives rise to. *)
Lemma run_calls_length (flag : bool) (output_dir : Path)
    (h : loc → ConversionResult (Dict := Dict)) (ls : list loc) :
  length (flat_map (λ l, result_writes flag output_dir (h l)) ls)
  = (if flag then 8 else 4) * count_status is_success (map h ls).
Proof.
  unfold count_status.
  induction ls as [|l ls IH]; cbn [flat_map map List.filter].
  - cbn. lia.
  - rewrite length_app, IH, result_writes_length.
    destruct (is_success (status (h l))); cbn [length]; lia.
Qed.

(** X4. Every write call of a run goes to a direct child of the output
    directory, named after the stem of a successfully converted document of
    the sequence followed by one of the eight format suffixes; a file that
    is not a direct child of the output directory is left as it was. *)
Theorem writes_stay_in_output_dir (conv_results : list loc)
    (output_dir : Path) (w : World) :
  let w' := snd (export_documents conv_results output_dir w) in
  ∃ calls, opened w' = opened w ++ calls
    ∧ Forall (λ call, ∃ l sfx,
                l ∈ conv_results
                ∧ status (heap w l) = SUCCESS
                ∧ sfx ∈ primary_suffixes ++ experimental_suffixes
                ∧ w_path call
                  = output_dir
                    // (PurePath.stem (file (input (heap w l))) +:+ sfx)) calls
    ∧ ∀ p, (∀ segment, p ≠ output_dir // segment) →
           files w' !! p = files w !! p.
Proof.
  pose proof (export_documents_run json_dumps yaml_safe_dump conv_results
                output_dir w) as Hrun.
  cbn zeta in Hrun. cbn zeta. rewrite Hrun. cbn [snd extend opened files].
  eexists. split; [reflexivity|].
  assert (Hcalls : Forall (λ call, ∃ l sfx,
                l ∈ conv_results
                ∧ status (heap w l) = SUCCESS
                ∧ sfx ∈ primary_suffixes ++ experimental_suffixes
                ∧ w_path call
                  = output_dir
                    // (PurePath.stem (file (input (heap w l))) +:+ sfx))
            (flat_map (λ l, result_writes (USE_EXPERIMENTAL w) output_dir
                              (heap w l)) conv_results)).
  { apply Forall_flat_map, Forall_forall. intros l Hl.
    eapply Forall_impl; [apply result_writes_paths|].
    intros call (Hst & sfx & Hsfx & Hpath). exists l, sfx.
    split; [done|]. split; [done|]. split; done. }
  split; [exact Hcalls|].
  intros p Hp. apply replay_lookup_other.
  intros (call & -> & Hcall)%list_elem_of_fmap.
  rewrite Forall_forall in Hcalls.
  destruct (Hcalls call) as (l & sfx & _ & _ & _ & Hpath); [done|].
  by apply (Hp _ Hpath).
Qed.

(** X5. A run never removes a file: every path that named a file before the
    run still names one after it. *)
Theorem export_documents_keeps_files (conv_results : list loc)
    (output_dir : Path) (w : World) (p : Path) :
  is_Some (files w !! p) →
  is_Some (files (snd (export_documents conv_results output_dir w)) !! p).
Proof.
  intros Hp.
  pose proof (export_documents_run json_dumps yaml_safe_dump conv_results
                output_dir w) as Hrun.
  cbn zeta in Hrun. rewrite Hrun. cbn [snd extend files].
  by apply replay_keeps_files.
Qed.

(** X6. When no result of the sequence has status SUCCESS, a run issues no
    write call and leaves every file as it was. *)
Theorem no_success_no_file (conv_results : list loc) (output_dir : Path)
    (w : World) :
  Forall (λ l, status (heap w l) ≠ SUCCESS) conv_results →
  let w' := snd (export_documents conv_results output_dir w) in
  opened w' = opened w ∧ files w' = files w.
Proof.
  intros Hno.
  pose proof (export_documents_run json_dumps yaml_safe_dump conv_results
                output_dir w) as Hrun.
  cbn zeta in Hrun. cbn zeta. rewrite Hrun. cbn [snd extend opened files].
  assert (Hnil : flat_map (λ l, result_writes (USE_EXPERIMENTAL w) output_dir
                                  (heap w l)) conv_results = []).
  { clear Hrun. induction Hno as [|l ls Hl _ IH]; [done|]. cbn. rewrite IH.
    unfold result_writes. by destruct (status (heap w l)). }
  rewrite Hnil. cbn. by rewrite app_nil_r.
Qed.

(** X7. A run issues four write calls per successfully converted document,
    eight when [USE_EXPERIMENTAL] is set: the number of calls is that
    multiple of the returned success count. *)
Theorem write_calls_per_success (conv_results : list loc) (output_dir : Path)
    (w : World) :
  let run := export_documents conv_results output_dir w in
  length (opened (snd run))
  = length (opened w)
    + (if USE_EXPERIMENTAL w then 8 else 4) * fst (fst (fst run)).
Proof.
  pose proof (export_documents_run json_dumps yaml_safe_dump conv_results
                output_dir w) as Hrun.
  cbn zeta in Hrun. cbn zeta. rewrite Hrun. cbn [snd fst extend opened].
  pose proof (fold_bump_counts (heap w) conv_results zero_counts) as Hc.
  cbn zeta in Hc. destruct Hc as (-> & _). cbn [success_count zero_counts].
  rewrite length_app, run_calls_length. cbn [after_mkdir mkdir snd opened].
  by rewrite Nat.add_0_l.
Qed.

(** X8. The files named after the stem of the last document of the
    sequence hold that document's renderings once the run is over, whatever
    came before it: a successfully converted document silently overwrites
    the output of every earlier document with the same stem. *)
Theorem last_document_wins (before : list loc) (l : loc) (output_dir : Path)
    (w : World) :
  status (heap w l) = SUCCESS →
  let r := heap w l in
  let doc_filename := PurePath.stem (file (input r)) in
  let w' := snd (export_documents (before ++ [l]) output_dir w) in
  files w' !! (output_dir // (doc_filename +:+ ".json"))
  = Some {| f_encoding := "utf-8"; f_text := json_dumps (render_as_dict r) |}
  ∧ files w' !! (output_dir // (doc_filename +:+ ".txt"))
    = Some {| f_encoding := "utf-8"; f_text := render_as_text r |}
  ∧ files w' !! (output_dir // (doc_filename +:+ ".md"))
    = Some {| f_encoding := "utf-8"; f_text := render_as_markdown r |}
  ∧ files w' !! (output_dir // (doc_filename +:+ ".doctags"))
    = Some {| f_encoding := "utf-8"; f_text := render_as_doctags r |}.
Proof.
  intros Hst r doc_filename w'.
  pose proof (export_documents_run json_dumps yaml_safe_dump (before ++ [l])
                output_dir w) as Hrun.
  cbn zeta in Hrun. subst w'. rewrite Hrun. cbn [snd extend files].
  rewrite run_calls_app, replay_app. cbn [flat_map]. rewrite app_nil_r.
  unfold result_writes. rewrite Hst.
  match goal with
  | |- context [replay ?p ?cs (replay ?p ?cs0 ?m0)] =>
      set (m := replay p cs0 m0); set (calls := cs)
  end.
  assert (Hcalls : calls
            = primary_writes json_dumps output_dir r
              ++ (if USE_EXPERIMENTAL w
                  then experimental_writes json_dumps yaml_safe_dump output_dir r
                  else [])) by done.
  assert (Hnd : NoDup (map w_path calls)).
  { pose proof (export_paths_NoDup output_dir doc_filename
                  (USE_EXPERIMENTAL w)) as Hnd.
    rewrite Hcalls. by destruct (USE_EXPERIMENTAL w). }
  assert (Hin : ∀ call, call ∈ primary_writes json_dumps output_dir r →
            replay (locale_encoding (after_mkdir output_dir w)) calls m
              !! w_path call
            = Some (written_file (locale_encoding (after_mkdir output_dir w))
                      call)).
  { intros call Hcall. apply replay_lookup_call; [done|].
    rewrite Hcalls. apply elem_of_app. by left. }
  unfold primary_writes in Hin. fold doc_filename in Hin.
  repeat split.
  - apply (Hin {| w_path := output_dir // (doc_filename +:+ ".json");
                  w_encoding := Some "utf-8";
                  w_data := json_dumps (render_as_dict r) |}).
    set_solver.
  - apply (Hin {| w_path := output_dir // (doc_filename +:+ ".txt");
                  w_encoding := Some "utf-8";
                  w_data := render_as_text r |}).
    set_solver.
  - apply (Hin {| w_path := output_dir // (doc_filename +:+ ".md");
                  w_encoding := Some "utf-8";
                  w_data := render_as_markdown r |}).
    set_solver.
  - apply (Hin {| w_path := output_dir // (doc_filename +:+ ".doctags");
                  w_encoding := Some "utf-8";
                  w_data := render_as_doctags r |}).
    set_solver.
Qed.

(** Counting over a concatenation. *)
Lemma count_status_app (P : ConversionStatus → bool)
    (rs1 rs2 : list (ConversionResult (Dict := Dict))) :
  count_status P (rs1 ++ rs2) = count_status P rs1 + count_status P rs2.
Proof. unfold count_status. by rewrite List.filter_app, length_app. Qed.

(** X9. Exporting a sequence in two batches, one run after the other on the
    same output directory, leaves the same files, the same directories and
    the same history of write calls as one run over the whole sequence, and
    the counts of the whole are the sums of the counts of the batches. *)
Theorem export_in_two_batches (batch1 batch2 : list loc) (output_dir : Path)
    (w : World) :
  let run1 := export_documents batch1 output_dir w in
  let run2 := export_documents batch2 output_dir (snd run1) in
  let run := export_documents (batch1 ++ batch2) output_dir w in
  files (snd run) = files (snd run2)
  ∧ dirs (snd run) = dirs (snd run2)
  ∧ opened (snd run) = opened (snd run2)
  ∧ fst (fst (fst run)) = fst (fst (fst run1)) + fst (fst (fst run2))
  ∧ snd (fst (fst run)) = snd (fst (fst run1)) + snd (fst (fst run2))
  ∧ snd (fst run) = snd (fst run1) + snd (fst run2).
Proof.
  pose proof (export_documents_run json_dumps yaml_safe_dump batch1
                output_dir w) as Hrun1.
  pose proof (export_documents_run json_dumps yaml_safe_dump
                (batch1 ++ batch2) output_dir w) as Hrun.
  cbn zeta in Hrun1, Hrun. cbn zeta.
  set (w1 := snd (export_documents batch1 output_dir w)).
  assert (Hw1 : w1 = snd (export_documents batch1 output_dir w)) by done.
  rewrite Hrun1 in Hw1. cbn [snd] in Hw1.
  pose proof (export_documents_run json_dumps yaml_safe_dump batch2
                output_dir w1) as Hrun2.
  cbn zeta in Hrun2. rewrite Hrun2, Hrun, Hrun1. cbn [snd fst].
  assert (Hheap : heap w1 = heap w) by (by rewrite Hw1).
  assert (Hflag : USE_EXPERIMENTAL w1 = USE_EXPERIMENTAL w) by (by rewrite Hw1).
  rewrite Hheap, Hflag.
  pose proof (fold_bump_counts (heap w) batch1 zero_counts) as H1.
  pose proof (fold_bump_counts (heap w) batch2 zero_counts) as H2.
  pose proof (fold_bump_counts (heap w) (batch1 ++ batch2) zero_counts) as H12.
  cbn zeta in H1, H2, H12.
  destruct H1 as (-> & -> & ->), H2 as (-> & -> & ->), H12 as (-> & -> & ->).
  rewrite map_app, !count_status_app. cbn [zero_counts success_count
    partial_success_count failure_count].
  rewrite Hw1. unfold after_mkdir, mkdir.
  cbn [snd extend files dirs opened locale_encoding].
  rewrite run_calls_app, replay_app, app_assoc.
  repeat split; try lia. set_solver.
Qed.

(** How many lines the results of a sequence add to the log. *)
Lemma run_lines_length (h : loc → ConversionResult (Dict := Dict))
    (ls : list loc) :
  length (flat_map (λ l, result_lines (h l)) ls)
  = count_status is_partial (map h ls) + count_status is_other (map h ls)
    + sum_list_with
        (λ l, if is_partial (status (h l)) then length (errors (h l)) else 0)
        ls.
Proof.
  unfold count_status.
  induction ls as [|l ls IH]; cbn [flat_map map List.filter sum_list_with];
    [done|].
  rewrite length_app, IH. unfold result_lines, is_other, is_partial, is_success.
  destruct (status (h l)); cbn [length negb andb]; rewrite ?length_map; lia.
Qed.

(** X10. A run adds to the log one line per failed document, one line plus
    one line per error record for each partially converted document, no line
    for a successfully converted document, and the summary line. *)
Theorem log_lines_per_run (conv_results : list loc) (output_dir : Path)
    (w : World) :
  let run := export_documents conv_results output_dir w in
  length (log (snd run))
  = length (log w)
    + snd (fst run)
    + snd (fst (fst run))
    + sum_list_with
        (λ l, if is_partial (status (heap w l))
              then length (errors (heap w l)) else 0)
        conv_results
    + 1.
Proof.
  pose proof (export_documents_run json_dumps yaml_safe_dump conv_results
                output_dir w) as Hrun.
  cbn zeta in Hrun. cbn zeta. rewrite Hrun. cbn [snd fst extend log].
  pose proof (fold_bump_counts (heap w) conv_results zero_counts) as Hc.
  cbn zeta in Hc. destruct Hc as (_ & -> & ->).
  rewrite !length_app, run_lines_length. cbn. lia.
Qed.

(** *** Documents with different stems *)

Lemma string_app_cons (a : ascii) (s x : string) :
  String a s +:+ x = String a (s +:+ x).
Proof. reflexivity. Qed.

Lemma string_app_nil (x : string) : EmptyString +:+ x = x.
Proof. reflexivity. Qed.

Lemma string_length_app (s x : string) :
  String.length (s +:+ x) = String.length s + String.length x.
Proof.
  induction s as [|a s IH]; [reflexivity|].
  rewrite string_app_cons. cbn [String.length]. by rewrite IH.
Qed.

Lemma string_app_same_length (s1 s2 x y : string) :
  String.length x = String.length y → s1 +:+ x = s2 +:+ y → s1 = s2 ∧ x = y.
Proof.
  revert s2. induction s1 as [|a s1 IH]; intros [|b s2] Hlen Heq;
    rewrite ?string_app_cons, ?string_app_nil in Heq.
  - done.
  - subst x. cbn [String.length] in Hlen.
    rewrite string_length_app in Hlen. lia.
  - subst y. cbn [String.length] in Hlen.
    rewrite string_length_app in Hlen. lia.
  - injection Heq as -> Heq. destruct (IH s2 Hlen Heq) as [-> ->]. done.
Qed.

Lemma last_char_app (s x : string) :
  x ≠ EmptyString → last_char (s +:+ x) = last_char x.
Proof.
  intros Hx. induction s as [|a s IH]; [reflexivity|].
  rewrite string_app_cons. cbn [last_char].
  destruct (s +:+ x) eqn:Happ; [|done].
  destruct s; rewrite ?string_app_cons, ?string_app_nil in Happ;
    [done|discriminate].
Qed.

(** A primary file name determines its stem and its suffix. *)
Lemma primary_name_inj (s1 s2 sfx1 sfx2 : string) :
  sfx1 ∈ primary_suffixes → sfx2 ∈ primary_suffixes →
  s1 +:+ sfx1 = s2 +:+ sfx2 → s1 = s2 ∧ sfx1 = sfx2.
Proof.
  intros H1 H2 Heq.
  assert (Hlast : last_char sfx1 = last_char sfx2).
  { rewrite <- (last_char_app s1 sfx1), <- (last_char_app s2 sfx2), Heq; [done|..];
      intros ->; unfold primary_suffixes in *; set_solver. }
  assert (Hsfx : sfx1 = sfx2).
  { unfold primary_suffixes in H1, H2.
    repeat (apply elem_of_cons in H1 as [->|H1]);
      [..|by apply elem_of_nil in H1];
      repeat (apply elem_of_cons in H2 as [->|H2]);
      try (by apply elem_of_nil in H2); try done; cbn in Hlast; discriminate. }
  subst sfx2. by apply string_app_same_length in Heq.
Qed.

(** While [USE_EXPERIMENTAL] is off, the calls of one result go to primary
    file names. *)
Lemma result_writes_primary_paths (output_dir : Path)
    (r : ConversionResult (Dict := Dict)) :
  Forall (λ call, ∃ sfx, sfx ∈ primary_suffixes
                         ∧ w_path call
                           = output_dir // (PurePath.stem (file (input r)) +:+ sfx))
    (result_writes false output_dir r).
Proof.
  unfold result_writes. destruct (status r); [|by constructor..].
  rewrite app_nil_r. unfold primary_writes, primary_suffixes.
  repeat (constructor; [eexists; split; [|reflexivity]; set_solver|]).
  constructor.
Qed.

(** Documents with pairwise different stems are written to pairwise
    different files. *)
Lemma run_paths_NoDup (output_dir : Path)
    (h : loc → ConversionResult (Dict := Dict)) (ls : list loc) :
  NoDup (map (λ l, PurePath.stem (file (input (h l)))) ls) →
  NoDup (map w_path (flat_map (λ l, result_writes false output_dir (h l)) ls)).
Proof.
  induction ls as [|l ls IH]; intros Hnd; cbn [flat_map map]; [constructor|].
  cbn [map] in Hnd. apply NoDup_cons in Hnd as [Hl Hnd].
  rewrite map_app. apply NoDup_app. split; [|split; [|by apply IH]].
  - unfold result_writes. destruct (status (h l)); [|constructor..].
    rewrite app_nil_r.
    apply (export_paths_NoDup output_dir
             (PurePath.stem (file (input (h l)))) false).
  - intros p (c1 & -> & Hc1)%list_elem_of_fmap (c2 & Hp & Hc2)%list_elem_of_fmap.
    pose proof (result_writes_primary_paths output_dir (h l)) as Hf1.
    rewrite Forall_forall in Hf1.
    destruct (Hf1 c1 Hc1) as (sfx1 & Hsfx1 & Hp1).
    apply list_elem_of_In, in_flat_map in Hc2 as (l' & Hl' & Hc2).
    apply list_elem_of_In in Hl', Hc2.
    pose proof (result_writes_primary_paths output_dir (h l')) as Hf2.
    rewrite Forall_forall in Hf2.
    destruct (Hf2 c2 Hc2) as (sfx2 & Hsfx2 & Hp2).
    rewrite Hp1, Hp2 in Hp. unfold PurePath.truediv in Hp.
    apply app_inv_head in Hp. injection Hp as Hp.
    destruct (primary_name_inj _ _ _ _ Hsfx1 Hsfx2 Hp) as [Hstem _].
    apply Hl. rewrite Hstem. apply list_elem_of_fmap. by exists l'.
Qed.

(** X14. While [USE_EXPERIMENTAL] is off and the documents of the sequence
    have pairwise different stems, no document overwrites another: after the
    run the four files of every successfully converted document hold that
    document's renderings. *)
Theorem distinct_stems_keep_every_document (conv_results : list loc)
    (output_dir : Path) (w : World) :
  USE_EXPERIMENTAL w = false →
  NoDup (map (λ l, PurePath.stem (file (input (heap w l)))) conv_results) →
  let w' := snd (export_documents conv_results output_dir w) in
  ∀ l, l ∈ conv_results → status (heap w l) = SUCCESS →
    let r := heap w l in
    let doc_filename := PurePath.stem (file (input r)) in
    files w' !! (output_dir // (doc_filename +:+ ".json"))
    = Some {| f_encoding := "utf-8"; f_text := json_dumps (render_as_dict r) |}
    ∧ files w' !! (output_dir // (doc_filename +:+ ".txt"))
      = Some {| f_encoding := "utf-8"; f_text := render_as_text r |}
    ∧ files w' !! (output_dir // (doc_filename +:+ ".md"))
      = Some {| f_encoding := "utf-8"; f_text := render_as_markdown r |}
    ∧ files w' !! (output_dir // (doc_filename +:+ ".doctags"))
      = Some {| f_encoding := "utf-8"; f_text := render_as_doctags r |}.
Proof.
  intros Hflag Hstems w' l Hl Hst r doc_filename.
  pose proof (export_documents_run json_dumps yaml_safe_dump conv_results
                output_dir w) as Hrun.
  cbn zeta in Hrun. subst w'. rewrite Hrun, Hflag. clear Hrun.
  cbn [snd extend files].
  assert (Hin : ∀ call, call ∈ primary_writes json_dumps output_dir r →
            replay (locale_encoding (after_mkdir output_dir w))
              (flat_map (λ l, result_writes false output_dir (heap w l))
                 conv_results) (files (after_mkdir output_dir w))
              !! w_path call
            = Some (written_file (locale_encoding (after_mkdir output_dir w))
                      call)).
  { intros call Hcall. apply replay_lookup_call; [by apply run_paths_NoDup|].
    apply list_elem_of_In, in_flat_map. exists l.
    split; [by apply list_elem_of_In|]. apply list_elem_of_In.
    unfold result_writes. rewrite Hst, app_nil_r. done. }
  unfold primary_writes in Hin. fold doc_filename in Hin.
  repeat split.
  - apply (Hin {| w_path := output_dir // (doc_filename +:+ ".json");
                  w_encoding := Some "utf-8";
                  w_data := json_dumps (render_as_dict r) |}).
    set_solver.
  - apply (Hin {| w_path := output_dir // (doc_filename +:+ ".txt");
                  w_encoding := Some "utf-8";
                  w_data := render_as_text r |}).
    set_solver.
  - apply (Hin {| w_path := output_dir // (doc_filename +:+ ".md");
                  w_encoding := Some "utf-8";
                  w_data := render_as_markdown r |}).
    set_solver.
  - apply (Hin {| w_path := output_dir // (doc_filename +:+ ".doctags");
                  w_encoding := Some "utf-8";
                  w_data := render_as_doctags r |}).
    set_solver.
Qed.

End Batches.

(** ** More on [main] *)

Section MainNames.

Context {Dict : Type}.
Variable json_dumps : Dict → string.
Variable yaml_safe_dump : Dict → string.
Variable convert : list Path → M (Dict := Dict) (list loc).
Variable elapsed : string.

Local Abbreviation World := (World (Dict := Dict)).

(** X12. Binding [PdfDocumentConverter] alone does not repair [main]: with
    every other name of the call at line 113 bound and
    [StandardModelPipeline] unbound, [main] raises [NameError] for
    [StandardModelPipeline] while it evaluates the arguments of the call,
    still before anything is converted, exported or logged. *)
Theorem main_stops_at_unbound_pipeline (globals : gset string) (w : World) :
  "logging" ∈ globals → "Path" ∈ globals →
  "PdfDocumentConverter" ∈ globals → "PdfPipelineOptions" ∈ globals →
  "DocumentConversionInput" ∈ globals →
  "StandardModelPipeline" ∉ globals →
  main json_dumps yaml_safe_dump globals convert elapsed w
  = (inl (NameError "StandardModelPipeline"), w).
Proof.
  intros Hlog Hpath Hconv Hopts Hinput Hpipe.
  unfold main, make_converter, mbind, X_bind.
  rewrite (load_global_bound _ _ _ Hlog), (load_global_bound _ _ _ Hpath),
    (load_global_bound _ _ _ Hconv), (load_global_bound _ _ _ Hopts),
    (load_global_bound _ _ _ Hinput).
  by rewrite (load_global_unbound _ _ _ Hpipe).
Qed.

End MainNames.

(** ** More runs on concrete batches *)

(** Witness of X6: the two documents of the sample batch that were not
    converted successfully. *)
Lemma no_success_no_file_witness :
  Forall (λ l, status (heap (sample_world true) l) ≠ SUCCESS) [1; 2]
  ∧ files (snd (export_documents id id [1; 2] ["scratch"] (sample_world true)))
    = ∅.
Proof.
  assert (Hno : Forall (λ l, status (heap (sample_world true) l) ≠ SUCCESS)
                  [1; 2]) by (repeat constructor; discriminate).
  split; [exact Hno|].
  exact (proj2 (no_success_no_file id id [1; 2] ["scratch"] (sample_world true)
                  Hno)).
Defined.

(** Witness of X8: two documents with the stem [a]; the files hold the
    renderings of the second. *)
Lemma last_document_wins_witness :
  status (heap clash_world 1) = SUCCESS
  ∧ files (snd (export_documents id id [0; 1] ["scratch"] clash_world))
      !! ["scratch"; "a.txt"]
    = Some {| f_encoding := "utf-8"; f_text := "scanned text" |}.
Proof.
  split; [reflexivity|].
  exact (proj1 (proj2 (last_document_wins id id [0] 1 ["scratch"] clash_world
                         eq_refl))).
Defined.

(** Witness of X14: the sample batch, whose stems are [a], [b] and [c]. *)
Lemma distinct_stems_witness :
  USE_EXPERIMENTAL (sample_world false) = false
  ∧ NoDup (map (λ l, PurePath.stem (file (input (heap (sample_world false) l))))
             [0; 1; 2])
  ∧ files (snd (export_documents id id [0; 1; 2] ["scratch"]
                  (sample_world false)))
      !! ["scratch"; "a.json"]
    = Some {| f_encoding := "utf-8"; f_text := "{}" |}.
Proof.
  assert (Hnd : NoDup (map (λ l, PurePath.stem
                                   (file (input (heap (sample_world false) l))))
                         [0; 1; 2])).
  { apply (bool_decide_unpack _). vm_compute. reflexivity. }
  split; [reflexivity|]. split; [exact Hnd|].
  exact (proj1 (distinct_stems_keep_every_document id id [0; 1; 2] ["scratch"]
                  (sample_world false) eq_refl Hnd 0 (list_elem_of_here _ _)
                  eq_refl)).
Defined.

(** Witness of X13: the sample batch with [USE_EXPERIMENTAL] off. *)
Lemma writes_utf8_witness :
  USE_EXPERIMENTAL (sample_world false) = false
  ∧ ∃ calls,
      opened (snd (export_documents id id [0; 1; 2] ["scratch"]
                     (sample_world false)))
      = opened (sample_world false) ++ calls
      ∧ Forall (λ call,
                  effective_encoding
                    (snd (export_documents id id [0; 1; 2] ["scratch"]
                            (sample_world false))) call = "utf-8") calls.
Proof.
  split; [reflexivity|].
  exact (writes_utf8_without_experimental id id [0; 1; 2] ["scratch"]
           (sample_world false) eq_refl).
Defined.

(** Witness of X11: the module with both classes bound and a converter
    that yields one failed document. *)
Lemma main_with_names_bound_witness :
  (∀ x, x ∈ names_used_by_main → x ∈ patched_globals)
  ∧ fst (main id id patched_globals mixed_convert "0.00" (sample_world false))
    = inl (RuntimeError "The example failed converting 1 on 5.").
Proof.
  assert (Hbound : ∀ x, x ∈ names_used_by_main → x ∈ patched_globals).
  { apply Forall_forall. apply (bool_decide_unpack _). vm_compute. reflexivity. }
  split; [exact Hbound|].
  rewrite (main_with_names_bound id id mixed_convert "0.00" patched_globals
             (sample_world false) Hbound).
  vm_compute. reflexivity.
Defined.

(** Witness of X12: the module with only [PdfDocumentConverter] bound in
    addition. *)
Lemma main_stops_at_unbound_pipeline_witness :
  ("StandardModelPipeline" ∉ half_patched_globals)
  ∧ main id id half_patched_globals sample_convert "0.00" (sample_world false)
    = (inl (NameError "StandardModelPipeline"), sample_world false).
Proof.
  assert (Hin : ∀ x, bool_decide (x ∈ half_patched_globals) = true →
                     x ∈ half_patched_globals)
    by (intros x; apply bool_decide_eq_true_1).
  assert (Hout : "StandardModelPipeline" ∉ half_patched_globals).
  { apply (bool_decide_unpack _). vm_compute. reflexivity. }
  split; [exact Hout|].
  apply main_stops_at_unbound_pipeline; try exact Hout;
    apply Hin; vm_compute; reflexivity.
Defined.

(** Witness of X5: a file that was in the output directory before the
    run. *)
Lemma export_documents_keeps_files_witness :
  is_Some (files stocked_world !! ["scratch"; "notes.txt"])
  ∧ is_Some (files (snd (export_documents id id [0; 1; 2] ["scratch"]
                           stocked_world))
             !! ["scratch"; "notes.txt"]).
Proof.
  assert (Hfile : is_Some (files stocked_world !! ["scratch"; "notes.txt"])).
  { exists {| f_encoding := "utf-8"; f_text := "keep me" |}.
    vm_compute. reflexivity. }
  split; [exact Hfile|].
  exact (export_documents_keeps_files id id [0; 1; 2] ["scratch"] stocked_world
           ["scratch"; "notes.txt"] Hfile).
Defined.

(** ** What one result contributes to a run *)

Section PerResult.

Context {Dict : Type}.
Variable json_dumps : Dict → string.
Variable yaml_safe_dump : Dict → string.

Local Abbreviation World := (World (Dict := Dict)).
Local Abbreviation export_documents := (export_documents json_dumps yaml_safe_dump).
Local Abbreviation result_writes := (result_writes json_dumps yaml_safe_dump).
Local Abbreviation primary_writes := (primary_writes json_dumps).
Local Abbreviation experimental_writes :=
  (experimental_writes json_dumps yaml_safe_dump).
Local Abbreviation calls_added := (calls_added json_dumps yaml_safe_dump).
Local Abbreviation lines_logged := (lines_logged json_dumps yaml_safe_dump).
Local Abbreviation document_lines := (document_lines json_dumps yaml_safe_dump).

(** The calls a run adds are those of its results, in order. *)
Lemma calls_added_run (ls : list loc) (output_dir : Path) (w : World) :
  calls_added ls output_dir w
  = flat_map (λ l, result_writes (USE_EXPERIMENTAL w) output_dir (heap w l)) ls.
Proof.
  unfold calls_added.
  pose proof (export_documents_run json_dumps yaml_safe_dump ls output_dir w)
    as Hrun.
  cbn zeta in Hrun. rewrite Hrun.
  cbn [snd extend opened after_mkdir mkdir]. by rewrite drop_app_length.
Qed.

(** The lines a run logs about the documents are those of its results, in
    order. *)
Lemma document_lines_run (ls : list loc) (output_dir : Path) (w : World) :
  document_lines ls output_dir w = flat_map (λ l, result_lines (heap w l)) ls.
Proof.
  unfold document_lines, lines_logged.
  pose proof (export_documents_run json_dumps yaml_safe_dump ls output_dir w)
    as Hrun.
  cbn zeta in Hrun. rewrite Hrun.
  cbn [snd extend log after_mkdir mkdir].
  by rewrite drop_app_length, removelast_last.
Qed.

(** The counts a run returns. *)
Lemma run_counts (ls : list loc) (output_dir : Path) (w : World) :
  fst (export_documents ls output_dir w)
  = (count_status is_success (map (heap w) ls),
     count_status is_partial (map (heap w) ls),
     count_status is_other (map (heap w) ls)).
Proof.
  pose proof (export_documents_run json_dumps yaml_safe_dump ls output_dir w)
    as Hrun.
  cbn zeta in Hrun. rewrite Hrun. cbn [fst].
  pose proof (fold_bump_counts (heap w) ls zero_counts) as Hc.
  cbn zeta in Hc. destruct Hc as (-> & -> & ->). reflexivity.
Qed.

(** A run over a sequence with one more result at its end, against the run
    over the sequence itself. *)
Lemma run_snoc (ls : list loc) (l : loc) (output_dir : Path) (w : World) :
  let w1 := snd (export_documents ls output_dir w) in
  let w2 := snd (export_documents (ls ++ [l]) output_dir w) in
  let calls := result_writes (USE_EXPERIMENTAL w) output_dir (heap w l) in
  files w2 = replay (locale_encoding w) calls (files w1)
  ∧ opened w2 = opened w1 ++ calls
  ∧ dirs w2 = dirs w1.
Proof.
  pose proof (export_documents_run json_dumps yaml_safe_dump ls output_dir w)
    as Hrun1.
  pose proof (export_documents_run json_dumps yaml_safe_dump (ls ++ [l])
                output_dir w) as Hrun2.
  cbn zeta in Hrun1, Hrun2. cbn zeta. rewrite Hrun1, Hrun2.
  cbn [snd extend files opened dirs after_mkdir mkdir locale_encoding].
  rewrite run_calls_app, replay_app. cbn [flat_map].
  by rewrite !app_nil_r, app_assoc.
Qed.

(** C3. In a run of [export_documents], a result whose status is SUCCESS
    contributes, at its place in the sequence, exactly four write calls, to
    [{stem}.json], [{stem}.txt], [{stem}.md] and [{stem}.doctags] under the
    output directory, and exactly eight, adding the four
    [{stem}.experimental.*] files, when [USE_EXPERIMENTAL] is set; nothing
    but the status decides that these writes happen. The paths are pairwise
    different; once the result has been processed each of them holds what
    its call wrote and every other file is as the results before it left
    it. The result adds no log line and counts as one success. *)
Theorem export_documents_writes_success_files (before after : list loc)
    (l : loc) (output_dir : Path) (w : World) :
  status (heap w l) = SUCCESS →
  let r := heap w l in
  let doc_filename := PurePath.stem (file (input r)) in
  let calls :=
    primary_writes output_dir r
      ++ (if USE_EXPERIMENTAL w then experimental_writes output_dir r else []) in
  let paths :=
    map (λ sfx, output_dir // (doc_filename +:+ sfx))
      (primary_suffixes
         ++ (if USE_EXPERIMENTAL w then experimental_suffixes else [])) in
  let run := λ ls, export_documents ls output_dir w in
  let w1 := snd (run before) in
  let w2 := snd (run (before ++ [l])) in
  calls_added (before ++ l :: after) output_dir w
  = calls_added before output_dir w ++ calls ++ calls_added after output_dir w
  ∧ map w_path calls = paths
  ∧ length calls = (if USE_EXPERIMENTAL w then 8 else 4)
  ∧ NoDup paths
  ∧ opened w2 = opened w1 ++ calls
  ∧ (∀ call, call ∈ calls →
       files w2 !! w_path call = Some (written_file (locale_encoding w) call))
  ∧ (∀ p, p ∉ paths → files w2 !! p = files w1 !! p)
  ∧ dom (files w2) = list_to_set paths ∪ dom (files w1)
  ∧ document_lines (before ++ l :: after) output_dir w
    = document_lines before output_dir w ++ document_lines after output_dir w
  ∧ fst (fst (fst (run (before ++ l :: after))))
    = fst (fst (fst (run before))) + 1 + fst (fst (fst (run after)))
  ∧ snd (fst (fst (run (before ++ l :: after))))
    = snd (fst (fst (run before))) + snd (fst (fst (run after)))
  ∧ snd (fst (run (before ++ l :: after)))
    = snd (fst (run before)) + snd (fst (run after)).
Proof.
  intros Hst r doc_filename calls paths run w1 w2.
  assert (Hcalls : result_writes (USE_EXPERIMENTAL w) output_dir (heap w l)
                   = calls).
  { unfold result_writes. by rewrite Hst. }
  assert (Hlines : result_lines (heap w l) = []).
  { unfold result_lines. by rewrite Hst. }
  assert (Hpaths : map w_path calls = paths).
  { subst calls paths. by destruct (USE_EXPERIMENTAL w). }
  assert (Hnd : NoDup paths) by apply export_paths_NoDup.
  pose proof (run_snoc before l output_dir w) as Hsnoc.
  cbn zeta in Hsnoc. rewrite Hcalls in Hsnoc.
  change (files w2 = replay (locale_encoding w) calls (files w1)
          ∧ opened w2 = opened w1 ++ calls ∧ dirs w2 = dirs w1) in Hsnoc.
  destruct Hsnoc as (Hfiles & Hopened & _).
  clearbody w1 w2. subst run. cbn beta. rewrite !run_counts, !calls_added_run,
    !document_lines_run.
  cbn [fst snd]. rewrite !map_app, !run_calls_app, !flat_map_app.
  cbn [flat_map map]. rewrite !count_status_app, Hcalls, Hlines.
  unfold count_status. cbn [List.filter]. unfold is_other. rewrite Hst.
  cbn [is_success is_partial negb andb length app].
  split; [done|]. split; [done|]. split.
  { subst calls. by destruct (USE_EXPERIMENTAL w). }
  split; [done|]. split; [done|]. split.
  { intros call Hcall. rewrite Hfiles.
    apply replay_lookup_call; [by rewrite Hpaths|done]. }
  split.
  { intros p Hp. rewrite Hfiles. apply replay_lookup_other. by rewrite Hpaths. }
  split.
  { rewrite Hfiles, <- Hpaths. clear. generalize (files w1).
    induction calls as [|call calls IH] using rev_ind; intros m.
    - cbn. set_solver.
    - rewrite replay_snoc, dom_insert_L, IH, map_app, list_to_set_app_L.
      cbn. set_solver. }
  repeat split; lia.
Qed.

(** C4. In a run of [export_documents], a result whose status is
    PARTIAL_SUCCESS contributes no write call and changes no file; at its
    place in the sequence the log gets one line naming the document followed
    by one line per error record carrying that record's message; the result
    counts as one partial success and as nothing else. *)
Theorem export_documents_logs_partial_success (before after : list loc)
    (l : loc) (output_dir : Path) (w : World) :
  status (heap w l) = PARTIAL_SUCCESS →
  let r := heap w l in
  let run := λ ls, export_documents ls output_dir w in
  let w1 := snd (run before) in
  let w2 := snd (run (before ++ [l])) in
  calls_added (before ++ l :: after) output_dir w
  = calls_added before output_dir w ++ calls_added after output_dir w
  ∧ files w2 = files w1 ∧ opened w2 = opened w1 ∧ dirs w2 = dirs w1
  ∧ document_lines (before ++ l :: after) output_dir w
    = document_lines before output_dir w
      ++ ("Document " +:+ PurePath.str (file (input r))
          +:+ " was partially converted with the following errors:")
         :: map (λ item, String "009"%char (error_message item)) (errors r)
      ++ document_lines after output_dir w
  ∧ snd (fst (fst (run (before ++ l :: after))))
    = snd (fst (fst (run before))) + 1 + snd (fst (fst (run after)))
  ∧ fst (fst (fst (run (before ++ l :: after))))
    = fst (fst (fst (run before))) + fst (fst (fst (run after)))
  ∧ snd (fst (run (before ++ l :: after)))
    = snd (fst (run before)) + snd (fst (run after)).
Proof.
  intros Hst r run w1 w2.
  assert (Hcalls : result_writes (USE_EXPERIMENTAL w) output_dir (heap w l)
                   = []).
  { unfold result_writes. by rewrite Hst. }
  assert (Hlines : result_lines (heap w l)
                   = partial_header r :: map error_line (errors r)).
  { unfold result_lines. by rewrite Hst. }
  pose proof (run_snoc before l output_dir w) as Hsnoc.
  cbn zeta in Hsnoc. rewrite Hcalls in Hsnoc.
  change (files w2 = files w1 ∧ opened w2 = opened w1 ++ []
          ∧ dirs w2 = dirs w1) in Hsnoc.
  destruct Hsnoc as (Hfiles & Hopened & Hdirs). rewrite app_nil_r in Hopened.
  clearbody w1 w2. subst run. cbn beta. rewrite !run_counts, !calls_added_run,
    !document_lines_run.
  cbn [fst snd]. rewrite !map_app, !run_calls_app, !flat_map_app.
  cbn [flat_map map]. rewrite !count_status_app, Hcalls, Hlines.
  unfold count_status. cbn [List.filter]. unfold is_other. rewrite Hst.
  cbn [is_success is_partial negb andb length app].
  split; [done|]. split; [done|]. split; [done|]. split; [done|].
  split; [done|]. repeat split; lia.
Qed.

(** C5. In a run of [export_documents], a result whose status is neither
    SUCCESS nor PARTIAL_SUCCESS contributes no write call and changes no
    file; at its place in the sequence the log gets exactly one line, naming
    the document; the result counts as one failure and as nothing else. It
    does not stop the batch: the results after it contribute their write
    calls, their log lines and their counts as in a run of their own. *)
Theorem export_documents_logs_failure_and_continues (before after : list loc)
    (l : loc) (output_dir : Path) (w : World) :
  status (heap w l) ≠ SUCCESS →
  status (heap w l) ≠ PARTIAL_SUCCESS →
  let r := heap w l in
  let run := λ ls, export_documents ls output_dir w in
  let w1 := snd (run before) in
  let w2 := snd (run (before ++ [l])) in
  calls_added (before ++ l :: after) output_dir w
  = calls_added before output_dir w ++ calls_added after output_dir w
  ∧ files w2 = files w1 ∧ opened w2 = opened w1 ∧ dirs w2 = dirs w1
  ∧ document_lines (before ++ l :: after) output_dir w
    = document_lines before output_dir w
      ++ ["Document " +:+ PurePath.str (file (input r))
          +:+ " failed to convert."]
      ++ document_lines after output_dir w
  ∧ snd (fst (run (before ++ l :: after)))
    = snd (fst (run before)) + 1 + snd (fst (run after))
  ∧ fst (fst (fst (run (before ++ l :: after))))
    = fst (fst (fst (run before))) + fst (fst (fst (run after)))
  ∧ snd (fst (fst (run (before ++ l :: after))))
    = snd (fst (fst (run before))) + snd (fst (fst (run after)))
  ∧ last (lines_logged (before ++ l :: after) output_dir w)
    = Some ("Processed "
            +:+ pretty (length before + 1 + length after)
            +:+ " docs, of which "
            +:+ pretty (snd (fst (run before)) + 1 + snd (fst (run after)))
            +:+ " failed and "
            +:+ pretty (snd (fst (fst (run before)))
                        + snd (fst (fst (run after))))
            +:+ " were partially converted.").
Proof.
  intros Hs Hp r run w1 w2.
  assert (Hst : status (heap w l) = FAILURE)
    by (by destruct (status (heap w l))).
  assert (Hcalls : result_writes (USE_EXPERIMENTAL w) output_dir (heap w l)
                   = []).
  { unfold result_writes. by rewrite Hst. }
  assert (Hlines : result_lines (heap w l) = [failure_line r]).
  { unfold result_lines. by rewrite Hst. }
  pose proof (run_snoc before l output_dir w) as Hsnoc.
  cbn zeta in Hsnoc. rewrite Hcalls in Hsnoc.
  change (files w2 = files w1 ∧ opened w2 = opened w1 ++ []
          ∧ dirs w2 = dirs w1) in Hsnoc.
  destruct Hsnoc as (Hfiles & Hopened & Hdirs). rewrite app_nil_r in Hopened.
  assert (Hlast : last (lines_logged (before ++ l :: after) output_dir w)
                  = Some (summary_line
                            (fold_left (λ c l, bump (status (heap w l)) c)
                               (before ++ l :: after) zero_counts))).
  { unfold lines_logged.
    pose proof (export_documents_run json_dumps yaml_safe_dump
                  (before ++ l :: after) output_dir w) as Hrun.
    cbn zeta in Hrun. rewrite Hrun. cbn [snd extend log after_mkdir mkdir].
    by rewrite drop_app_length, last_snoc. }
  rewrite Hlast. unfold summary_line.
  pose proof (fold_bump_sum (heap w) (before ++ l :: after) zero_counts)
    as Hsum.
  pose proof (fold_bump_counts (heap w) (before ++ l :: after) zero_counts)
    as Hc.
  cbn zeta in Hsum, Hc. destruct Hc as (_ & Hcp & Hcf).
  rewrite Hsum, Hcp, Hcf. clear Hsum Hcp Hcf Hlast.
  clearbody w1 w2. subst run. cbn beta. rewrite !run_counts, !calls_added_run,
    !document_lines_run.
  cbn [fst snd]. rewrite !map_app, !run_calls_app, !flat_map_app.
  cbn [flat_map map]. rewrite !count_status_app, Hcalls, Hlines.
  unfold count_status. cbn [List.filter]. unfold is_other. rewrite Hst.
  cbn [is_success is_partial negb andb length app zero_counts success_count
       partial_success_count failure_count].
  rewrite length_app. cbn [length].
  split; [done|]. split; [done|]. split; [done|]. split; [done|].
  split; [done|]. split; [lia|]. split; [lia|]. split; [lia|].
  match goal with
  | |- Some (_ +:+ pretty ?a +:+ _ +:+ pretty ?b +:+ _ +:+ pretty ?c +:+ _)
       = Some (_ +:+ pretty ?a' +:+ _ +:+ pretty ?b' +:+ _ +:+ pretty ?c' +:+ _) =>
      replace a with a' by lia; replace b with b' by lia;
      replace c with c' by lia
  end.
  reflexivity.
Qed.

End PerResult.

(** ** Single results within runs on the sample batch *)

(** Witness of C3: the successfully converted document of the sample batch
    between the two others, with the experimental formats switched on. *)
Lemma success_files_witness :
  status (heap (sample_world true) 0) = SUCCESS
  ∧ map w_path (calls_added id id [1; 0; 2] ["scratch"] (sample_world true))
    = [ ["scratch"; "a.json"]; ["scratch"; "a.txt"]; ["scratch"; "a.md"];
        ["scratch"; "a.doctags"]; ["scratch"; "a.experimental.json"];
        ["scratch"; "a.experimental.yaml"];
        ["scratch"; "a.experimental.doctags"];
        ["scratch"; "a.experimental.md"] ]
  ∧ files (snd (export_documents id id [1; 0] ["scratch"] (sample_world true)))
      !! ["scratch"; "a.experimental.yaml"]
    = Some {| f_encoding := "cp1252"; f_text := "{}" |}.
Proof.
  split; [reflexivity|].
  pose proof (export_documents_writes_success_files id id [1] [2] 0 ["scratch"]
                (sample_world true) eq_refl) as H.
  cbn zeta in H. destruct H as (Hadd & _ & _ & _ & _ & Hfiles & _).
  split.
  - change ([1] ++ 0 :: [2]) with [1; 0; 2] in Hadd.
    rewrite Hadd. vm_compute. reflexivity.
  - apply (Hfiles {| w_path := ["scratch"; "a.experimental.yaml"];
                     w_encoding := None;
                     w_data := "{}" |}).
    apply (bool_decide_unpack _). vm_compute. reflexivity.
Defined.

(** Witness of C4: the partially converted document of the sample batch
    between the two others. *)
Lemma partial_success_run_witness :
  status (heap (sample_world false) 1) = PARTIAL_SUCCESS
  ∧ document_lines id id [0; 1; 2] ["scratch"] (sample_world false)
    = [ "Document docs/b.pdf was partially converted with the following errors:";
        String "009"%char "bad page";
        "Document docs/c.pdf failed to convert." ]
  ∧ files (snd (export_documents id id [0; 1] ["scratch"] (sample_world false)))
    = files (snd (export_documents id id [0] ["scratch"] (sample_world false))).
Proof.
  split; [reflexivity|].
  pose proof (export_documents_logs_partial_success id id [0] [2] 1 ["scratch"]
                (sample_world false) eq_refl) as H.
  cbn zeta in H. destruct H as (_ & Hfiles & _ & _ & Hlines & _).
  split; [|exact Hfiles].
  change ([0] ++ 1 :: [2]) with [0; 1; 2] in Hlines.
  rewrite Hlines. vm_compute. reflexivity.
Defined.

(** Witness of C5: the failed document of the sample batch followed by the
    successfully converted one, which is exported all the same. *)
Lemma failure_run_witness :
  status (heap (sample_world false) 2) ≠ SUCCESS
  ∧ status (heap (sample_world false) 2) ≠ PARTIAL_SUCCESS
  ∧ document_lines id id [2; 0] ["scratch"] (sample_world false)
    = [ "Document docs/c.pdf failed to convert." ]
  ∧ map w_path (calls_added id id [2; 0] ["scratch"] (sample_world false))
    = [ ["scratch"; "a.json"]; ["scratch"; "a.txt"]; ["scratch"; "a.md"];
        ["scratch"; "a.doctags"] ]
  ∧ snd (fst (export_documents id id [2; 0] ["scratch"] (sample_world false)))
    = 1.
Proof.
  assert (Hs : status (heap (sample_world false) 2) ≠ SUCCESS) by discriminate.
  assert (Hp : status (heap (sample_world false) 2) ≠ PARTIAL_SUCCESS)
    by discriminate.
  split; [exact Hs|]. split; [exact Hp|].
  pose proof (export_documents_logs_failure_and_continues id id [] [0] 2
                ["scratch"] (sample_world false) Hs Hp) as H.
  cbn zeta in H. destruct H as (Hadd & _ & _ & _ & Hlines & Hcount & _).
  split; [|split].
  - change ([] ++ 2 :: [0]) with [2; 0] in Hlines. rewrite Hlines.
    vm_compute. reflexivity.
  - change ([] ++ 2 :: [0]) with [2; 0] in Hadd. rewrite Hadd.
    vm_compute. reflexivity.
  - change ([] ++ 2 :: [0]) with [2; 0] in Hcount. rewrite Hcount.
    vm_compute. reflexivity.
Defined.
